(** * Bundle cache usage ledger

    A shallow embedding of
    [python/tank/descriptor/bundle_cache_usage/database.py]: the
    [BundleCacheUsageDatabaseEntry] value object and the
    [BundleCacheUsageDatabase] class, whose single SQLite table [bundles]
    records when every cached bundle was created, when it was last used and
    how often.

    Conventions of the model.
    - A Python value that is either [None] or a [str] is an [option string].
    - The table [bundles] is the list of its rows in storage order.  The
      [UNIQUE PRIMARY KEY] constraint on [path] is not built into the type:
      [INSERT] checks it and raises, so that uniqueness of the keys is a
      property to be proved of the code and not an artefact of the model.
    - Python integers are unbounded integers [Z].  An integer bound to a
      parameter of a statement must fit the signed 64-bit SQLite [INTEGER]:
      otherwise [sqlite3] raises [OverflowError] and nothing is written.
    - [log.debug] writes no row and returns nothing, but its message is
      formatted before the call: the exceptions of the formatting are those
      of the method.
    - Every method that writes returns the new table or the exception it
      raises; a method that only reads returns its value, or the exception
      it raises where it can raise.
    - The platform is POSIX: [os.sep] is a slash and [os.path.join] is the
      one of [posixpath]. *)

From Stdlib Require Import String Ascii List ZArith Lia Bool Arith Sorted.
From Stdlib Require Import DecimalString.
Import ListNotations.

Open Scope string_scope.
Open Scope Z_scope.

(** ** Python strings *)

Module PyStr.

(** [s.startswith(prefix)] *)
Definition startswith (s prefix : string) : bool := String.prefix prefix s.

(** [s.endswith(suffix)] for a one-character suffix. *)
Fixpoint endswith_char (s : string) (c : ascii) : bool :=
  match s with
  | EmptyString => false
  | String a EmptyString => Ascii.eqb a c
  | String _ rest => endswith_char rest c
  end.

(** [s[n:]] *)
Fixpoint slice_from (n : nat) (s : string) : string :=
  match n, s with
  | O, _ => s
  | S _, EmptyString => EmptyString
  | S k, String _ rest => slice_from k rest
  end.

(** Truth value of a string in a condition: the empty string is false. *)
Definition truthy (s : string) : bool :=
  match s with
  | EmptyString => false
  | String _ _ => true
  end.

(** The left-to-right scan of [s.replace(old, new)] for a non-empty [old]:
    at every position where [old] occurs, [new] is emitted and the scan
    resumes after the occurrence ([skip] counts the characters of the
    occurrence still to be passed over). *)
Fixpoint replace_scan (old new : string) (skip : nat) (s : string) : string :=
  match s with
  | EmptyString => EmptyString
  | String c rest =>
      match skip with
      | S k => replace_scan old new k rest
      | O =>
          if String.prefix old s
          then new ++ replace_scan old new (String.length old - 1) rest
          else String c (replace_scan old new 0 rest)
      end
  end.

(** [s.replace("", new)]: [new] before every character and at the end. *)
Fixpoint replace_empty (new : string) (s : string) : string :=
  match s with
  | EmptyString => new
  | String c rest => new ++ String c (replace_empty new rest)
  end.

(** [old in s], for a non-empty [old]. *)
Fixpoint contains (s old : string) : bool :=
  match s with
  | EmptyString => false
  | String _ rest => String.prefix old s || contains rest old
  end.

(** ["%d" % n] *)
Definition format_d (n : Z) : string := NilZero.string_of_int (Z.to_int n).

(** [s.replace(old, new)]: every non-overlapping occurrence is replaced. *)
Definition replace (s old new : string) : string :=
  match old with
  | EmptyString => replace_empty new s
  | String _ _ => replace_scan old new 0 s
  end.

End PyStr.

(** ** The operating system interface *)

Module os.

(** [os.sep] *)
Definition sep : string := "/".

(** [os.path.join(a, b)] of [posixpath], for two components. *)
Definition path_join (a b : string) : string :=
  if PyStr.startswith b sep then b
  else if negb (PyStr.truthy a) || PyStr.endswith_char a "/"%char then a ++ b
  else a ++ sep ++ b.

End os.

(** ** Exceptions *)

Inductive exn : Type :=
| ValueError      (* raised by [int] on a string that is no integer literal,
                     and by [datetime] on a time outside its years *)
| IntegrityError  (* raised by SQLite when [INSERT] violates [UNIQUE] *)
| OverflowError   (* raised by [sqlite3] when an integer parameter does not
                     fit 64 bits, and by [datetime] beyond the platform's
                     [time_t] *)
| OSError.        (* raised by [datetime] where the platform refuses a time *)

Inductive result (A : Type) : Type :=
| Ok (a : A)
| Raise (e : exn).

Arguments Ok {A} a.
Arguments Raise {A} e.

Definition bind {A B : Type} (r : result A) (k : A -> result B) : result B :=
  match r with
  | Ok a => k a
  | Raise e => Raise e
  end.

Notation "x <- r ;; k" := (bind r (fun x => k))
  (at level 61, r at next level, right associativity).

(** ** The table [bundles] *)

(** A row as the cursor returns it:
    [(path, creation, last_usage, usage_count)]. *)
Definition db_record : Type := (string * Z * Z * Z)%type.

Definition table : Type := list db_record.

(** The column indexes [DB_COL_INDEX_PATH], ... are [range(4)]. *)
Definition col_path (r : db_record) : string := fst (fst (fst r)).
Definition col_creation (r : db_record) : Z := snd (fst (fst r)).
Definition col_last_usage (r : db_record) : Z := snd (fst r).
Definition col_usage_count (r : db_record) : Z := snd r.

(** [class BundleCacheUsageDatabaseEntry] *)
Record BundleCacheUsageDatabaseEntry : Type := mkEntry {
  path : string;
  creation_time : Z;
  last_usage_time : Z;
  usage_count : Z
}.

(** [BundleCacheUsageDatabaseEntry.__init__(db_record)] *)
Definition Entry_init (r : db_record) : BundleCacheUsageDatabaseEntry :=
  {| path := col_path r;
     creation_time := col_creation r;
     last_usage_time := col_last_usage r;
     usage_count := col_usage_count r |}.

Module Sql.

(** The integers a statement parameter can carry: signed, 64 bits. *)
Definition int64 (n : Z) : bool :=
  (- 2 ^ 63 <=? n) && (n <=? 2 ^ 63 - 1).

(** Binding a Python integer to a parameter of a statement. *)
Definition bind_int (n : Z) : result Z :=
  if int64 n then Ok n else Raise OverflowError.

(** [SELECT * FROM bundles WHERE path = ?] *)
Definition select_by_path (p : string) (t : table) : list db_record :=
  filter (fun r => String.eqb (col_path r) p) t.

(** [cursor.fetchone()] *)
Definition fetchone (rows : list db_record) : option db_record :=
  match rows with
  | [] => None
  | r :: _ => Some r
  end.

(** The rows after
    [UPDATE bundles SET last_usage = ?, usage_count = ? WHERE path = ?]. *)
Definition update_rows (last_usage count : Z) (p : string) (t : table) : table :=
  map (fun r => if String.eqb (col_path r) p
                then (col_path r, col_creation r, last_usage, count)
                else r) t.

(** [_execute] of the [UPDATE] with the parameters
    [(last_usage, count, p)]: the integers are bound, then the rows are
    rewritten. *)
Definition update (last_usage count : Z) (p : string) (t : table)
  : result table :=
  last_usage' <- bind_int last_usage ;;
  count' <- bind_int count ;;
  Ok (update_rows last_usage' count' p t).

(** The table after [INSERT INTO bundles(path, creation, last_usage,
    usage_count) VALUES(?,?,?,?)]: the row is appended, unless a row with
    this [path] exists, which the [UNIQUE] key refuses. *)
Definition insert_row (r : db_record) (t : table) : result table :=
  if existsb (fun r' => String.eqb (col_path r') (col_path r)) t
  then Raise IntegrityError
  else Ok (t ++ [r])%list.

(** [_execute] of the [INSERT] with the parameters of the row [r]: the
    integers are bound, then the row is inserted. *)
Definition insert (r : db_record) (t : table) : result table :=
  creation <- bind_int (col_creation r) ;;
  last_usage <- bind_int (col_last_usage r) ;;
  count <- bind_int (col_usage_count r) ;;
  insert_row (col_path r, creation, last_usage, count) t.

(** [DELETE FROM bundles WHERE path=?] *)
Definition delete (p : string) (t : table) : table :=
  filter (fun r => negb (String.eqb (col_path r) p)) t.

(** [SELECT COUNT( * ) from bundles] *)
Definition count (t : table) : Z := Z.of_nat (List.length t).

(** [SELECT * FROM bundles WHERE last_usage <= ?], for a threshold that is
    a Unix timestamp, as the docstring of [get_unused_bundles] asks. *)
Definition select_last_usage_le (threshold : Z) (t : table) : list db_record :=
  filter (fun r => col_last_usage r <=? threshold) t.

End Sql.

(** ** The process environment at one call *)

Record World : Type := mkWorld {
  (* os.environ.get of SHOTGUN_BUNDLE_CACHE_USAGE_TIMESTAMP_OVERRIDE *)
  timestamp_override : option string;
  (* int(time.time()) *)
  clock : Z
}.

(** ** [class BundleCacheUsageDatabase] *)

Section BundleCacheUsageDatabase.

(** What [LocalFileStorageManager.get_global_root(CACHE)] returns. *)
Variable global_root : string.

(** The built-in [int] on a string: [Some n] for an integer literal,
    [None] where it raises [ValueError]. *)
Variable py_int : string -> option Z.

(** [datetime.datetime.fromtimestamp(time).strftime(format)] for the format
    of [_format_date_from_timestamp]: the text of the date in local time,
    or the exception [datetime] raises for a time it cannot represent. *)
Variable strftime_fromtimestamp : Z -> result string.

(** [self._bundle_cache_root], as [__init__] computes it. *)
Definition bundle_cache_root : string :=
  os.path_join global_root "bundle_cache".

(** [BundleCacheUsageDatabaseEntry._format_date_from_timestamp] *)
Definition _format_date_from_timestamp (time : Z) : result string :=
  strftime_fromtimestamp time.

(** [BundleCacheUsageDatabaseEntry.creation_date_formatted] *)
Definition creation_date_formatted (self : BundleCacheUsageDatabaseEntry)
  : result string :=
  _format_date_from_timestamp (creation_time self).

(** [BundleCacheUsageDatabaseEntry.last_usage_date_formatted] *)
Definition last_usage_date_formatted (self : BundleCacheUsageDatabaseEntry)
  : result string :=
  _format_date_from_timestamp (last_usage_time self).

(** [BundleCacheUsageDatabaseEntry.__str__]:
    ["%s, %d (%s)" % (path, last_usage_time, last_usage_date_formatted)] *)
Definition Entry_str (self : BundleCacheUsageDatabaseEntry) : result string :=
  date <- last_usage_date_formatted self ;;
  Ok (path self ++ ", " ++ PyStr.format_d (last_usage_time self)
      ++ " (" ++ date ++ ")").

(** [_find_entry] *)
Definition _find_entry (bundle_path : string) (t : table)
  : option BundleCacheUsageDatabaseEntry :=
  match Sql.fetchone (Sql.select_by_path bundle_path t) with
  | Some db_rec => Some (Entry_init db_rec)
  | None => None
  end.

(** [_get_timestamp] *)
Definition _get_timestamp (w : World) : result Z :=
  match timestamp_override w with
  | Some s =>
      if PyStr.truthy s && (0 <? String.length s)%nat
      then match py_int s with
           | Some n => Ok n
           | None => Raise ValueError
           end
      else Ok (clock w)
  | None => Ok (clock w)
  end.

(** [_truncate_path] *)
Definition _truncate_path (bundle_path : option string) : option string :=
  match bundle_path with
  | None => None
  | Some p =>
      if negb (PyStr.truthy p) || negb (PyStr.startswith p bundle_cache_root)
      then None
      else
        let truncated_path := PyStr.replace p bundle_cache_root "" in
        Some (if PyStr.startswith truncated_path os.sep
              then PyStr.slice_from (String.length os.sep) truncated_path
              else truncated_path)
  end.

(** The test [if truncated_path:] on the result of [_truncate_path]:
    the key, when it is neither [None] nor the empty string. *)
Definition usable_key (truncated_path : option string) : option string :=
  match truncated_path with
  | Some k => if PyStr.truthy k then Some k else None
  | None => None
  end.

(** [_log_usage] *)
Definition _log_usage (bundle_path : option string) (initial_usage_count : Z)
    (w : World) (t : table) : result table :=
  match usable_key (_truncate_path bundle_path) with
  | Some truncated_path =>
      now_unix_timestamp <- _get_timestamp w ;;
      match _find_entry truncated_path t with
      | Some entry =>
          Sql.update now_unix_timestamp (usage_count entry + 1)
            (path entry) t
      | None =>
          Sql.insert (truncated_path, now_unix_timestamp,
                      now_unix_timestamp, initial_usage_count) t
      end
  | None => Ok t
  end.

(** [add_unused_bundle] *)
Definition add_unused_bundle (bundle_path : option string)
  : World -> table -> result table :=
  _log_usage bundle_path 0.

(** [log_usage] *)
Definition log_usage (bundle_path : option string)
  : World -> table -> result table :=
  _log_usage bundle_path 1.

(** [delete_entry] *)
Definition delete_entry (bundle : BundleCacheUsageDatabaseEntry) (t : table)
  : result table :=
  Ok (Sql.delete (path bundle) t).

(** [get_bundle].  The message of [log.debug] is
    ["get_bundle('%s') = %s" % (bundle_path, bundle)]: the entry found is
    formatted by [__str__] before it is returned. *)
Definition get_bundle (bundle_path : option string) (t : table)
  : result (option BundleCacheUsageDatabaseEntry) :=
  match usable_key (_truncate_path bundle_path) with
  | Some truncated_path =>
      match _find_entry truncated_path t with
      | Some bundle =>
          _ <- Entry_str bundle ;;
          Ok (Some bundle)
      | None => Ok None
      end
  | None => Ok None
  end.

(** [get_bundle_count] *)
Definition get_bundle_count (t : table) : Z := Sql.count t.

(** [get_unused_bundles] *)
Definition get_unused_bundles (since_timestamps : Z) (t : table)
  : list BundleCacheUsageDatabaseEntry :=
  map Entry_init (Sql.select_last_usage_le since_timestamps t).

(** *** Sequences of calls *)

Inductive call : Type :=
| Call_log_usage (bundle_path : option string)
| Call_add_unused_bundle (bundle_path : option string)
| Call_delete_entry (bundle : BundleCacheUsageDatabaseEntry).

Definition perform (w : World) (c : call) (t : table) : result table :=
  match c with
  | Call_log_usage p => log_usage p w t
  | Call_add_unused_bundle p => add_unused_bundle p w t
  | Call_delete_entry e => delete_entry e t
  end.

(** The table after a call: an exception leaves it as it was (nothing was
    written before [ValueError]; a parameter that cannot be bound stops the
    statement before it runs; a refused [INSERT] is rolled back). *)
Definition table_after (w : World) (c : call) (t : table) : table :=
  match perform w c t with
  | Ok t' => t'
  | Raise _ => t
  end.

(** The table after a sequence of calls, each in its own environment. *)
Fixpoint run (trace : list (World * call)) (t : table) : table :=
  match trace with
  | [] => t
  | (w, c) :: rest => run rest (table_after w c t)
  end.

(** The tables the ledger can hold: those a sequence of calls builds from
    the empty table that [_create_main_table] creates. *)
Definition reachable (t : table) : Prop :=
  exists trace, t = run trace [].


(** The value a call gets from [_get_timestamp], for the calls that reach
    it (the path has a usable key) and to which it returns. *)
Definition timestamp_drawn (w : World) (c : call) : option Z :=
  match c with
  | Call_log_usage p | Call_add_unused_bundle p =>
      match usable_key (_truncate_path p), _get_timestamp w with
      | Some _, Ok now => Some now
      | _, _ => None
      end
  | Call_delete_entry _ => None
  end.

(** The values the timestamp source produces along a sequence of calls. *)
Fixpoint timestamps_drawn (trace : list (World * call)) : list Z :=
  match trace with
  | [] => []
  | (w, c) :: rest =>
      match timestamp_drawn w c with
      | Some now => now :: timestamps_drawn rest
      | None => timestamps_drawn rest
      end
  end.

(** Normalization as the specification words it: no key for an absent or
    empty path and for one that does not begin with the cache root;
    otherwise the path without its leading cache root and without one
    leading separator. *)
Definition normalize_spec (absolute_path : option string) : option string :=
  match absolute_path with
  | None => None
  | Some p =>
      if negb (PyStr.truthy p) || negb (PyStr.startswith p bundle_cache_root)
      then None
      else
        let rest := PyStr.slice_from (String.length bundle_cache_root) p in
        Some (if PyStr.startswith rest os.sep
              then PyStr.slice_from (String.length os.sep) rest
              else rest)
  end.

End BundleCacheUsageDatabase.

(** ** A concrete [int]

    The built-in [int] on plain decimal literals: an optional sign followed
    by at least one ASCII digit.  It instantiates [py_int] wherever the model
    is run on a concrete environment. *)

Definition digit_value (c : ascii) : option Z :=
  let n := nat_of_ascii c in
  if ((48 <=? n) && (n <=? 57))%nat then Some (Z.of_nat (n - 48)) else None.

Fixpoint digits_value (acc : Z) (s : string) : option Z :=
  match s with
  | EmptyString => Some acc
  | String c rest =>
      match digit_value c with
      | Some d => digits_value (10 * acc + d) rest
      | None => None
      end
  end.

Definition decimal_int (s : string) : option Z :=
  match s with
  | EmptyString => None
  | String "-" (String _ _ as digits) => option_map Z.opp (digits_value 0 digits)
  | String "+" (String _ _ as digits) => digits_value 0 digits
  | String "-" EmptyString | String "+" EmptyString => None
  | _ => digits_value 0 s
  end.

(** ** A concrete date formatting

    A stand-in for [datetime] to run the model with: it accepts the times of
    the years 1 to 9999 in UTC and raises [ValueError] on the others, as
    CPython does on a 64-bit POSIX platform.  The text it returns is the
    number of seconds and not the calendar date, which no property looks
    at. *)
Definition sample_strftime (time : Z) : result string :=
  if (-62135596800 <=? time) && (time <=? 253402300799)
  then Ok (PyStr.format_d time)
  else Raise ValueError.

(** The environment of a call made at time [now] with no override set. *)
Definition at_time (now : Z) : World :=
  {| timestamp_override := None; clock := now |}.

(** ** Composed calls *)


(** The entry [_log_usage] leaves under the key [k] when it runs at time
    [now]: the entry found before with its last-usage time set and its
    counter one higher, or a new one. *)
Definition recorded (k : string) (initial_usage_count now : Z)
    (before : option BundleCacheUsageDatabaseEntry)
  : BundleCacheUsageDatabaseEntry :=
  match before with
  | Some entry => mkEntry k (creation_time entry) now (usage_count entry + 1)
  | None => mkEntry k now now initial_usage_count
  end.

(** The usage count a call gives a new entry. *)
Definition initial_count (c : call) : Z :=
  match c with
  | Call_log_usage _ => 1
  | Call_add_unused_bundle _ => 0
  | Call_delete_entry _ => 0
  end.

(** * Properties *)

(** ** The unit tests of the repository, on the model *)

(** [test_add_unused_bundle] *)
Example test_add_unused_bundle :
  get_bundle_count [] = 0 /\
  get_bundle "/c" sample_strftime (Some "/c/bundle_cache/app_store/tk-shell/v0.5.4") []
  = Ok None /\
  let t := run "/c" decimal_int
             [(at_time 1513635533,
               Call_add_unused_bundle (Some "/c/bundle_cache/app_store/tk-shell/v0.5.4"))]
             [] in
  get_bundle_count t = 1 /\
  get_bundle "/c" sample_strftime (Some "/c/bundle_cache/app_store/tk-shell/v0.5.4") t
  = Ok (Some (mkEntry "app_store/tk-shell/v0.5.4" 1513635533 1513635533 0)).
Proof. repeat split. Qed.

(** [test_db_log_usage_for_existing_entry] *)
Example test_db_log_usage_for_existing_entry :
  let t := run "/c" decimal_int
             [(at_time 10, Call_log_usage (Some "/c/bundle_cache/app_store/tk-shell/v0.5.4"));
              (at_time 11, Call_log_usage (Some "/c/bundle_cache/app_store/tk-shell/v0.5.4"));
              (at_time 12, Call_log_usage (Some "/c/bundle_cache/app_store/tk-shell/v0.5.4"))]
             [] in
  get_bundle_count t = 1 /\
  get_bundle "/c" sample_strftime (Some "/c/bundle_cache/app_store/tk-shell/v0.5.4") t
  = Ok (Some (mkEntry "app_store/tk-shell/v0.5.4" 10 12 3)).
Proof. repeat split. Qed.

(** [test_db_log_usage_for_None_entry] and
    [test_methods_with_non_existing_entry] *)
Example test_db_log_usage_for_None_entry :
  get_bundle_count (run "/c" decimal_int [(at_time 10, Call_log_usage None)] []) = 0 /\
  let t := run "/c" decimal_int
             [(at_time 10, Call_log_usage (Some "/c/bundle_cache/app_store/tk-shell/v0.5.4"));
              (at_time 11, Call_log_usage (Some "foOOOo-bar!"))]
             [] in
  get_bundle "/c" sample_strftime (Some "foOOOo-bar!") t = Ok None /\
  get_bundle_count t = 1.
Proof. repeat split. Qed.

(** [test_get_unused_bundles] *)
Example test_get_unused_bundles :
  let t := run "/c" decimal_int
             [(at_time 1000, Call_add_unused_bundle (Some "/c/bundle_cache/app_store/tk-shell/v0.5.4"));
              (at_time 1000, Call_add_unused_bundle (Some "/c/bundle_cache/app_store/tk-shell/v0.5.6"));
              (at_time 2000, Call_log_usage (Some "/c/bundle_cache/app_store/tk-shell/v0.5.4"));
              (at_time 3000, Call_log_usage (Some "/c/bundle_cache/app_store/tk-shell/v0.5.6"))]
             [] in
  get_unused_bundles 2000 t = [mkEntry "app_store/tk-shell/v0.5.4" 1000 2000 1].
Proof. reflexivity. Qed.

(** [test_delete_entry] *)
Example test_delete_entry :
  let t := run "/c" decimal_int
             [(at_time 10, Call_log_usage (Some "/c/bundle_cache/app_store/tk-shell/v0.5.4"));
              (at_time 11, Call_delete_entry
                             (mkEntry "foOOOo-bar!" 1513635533 1513636533 1))]
             [] in
  get_bundle_count t = 1 /\
  let t' := run "/c" decimal_int
              [(at_time 12, Call_delete_entry
                              (mkEntry "app_store/tk-shell/v0.5.4" 1513635533 1513636533 1))]
              t in
  get_bundle "/c" sample_strftime (Some "/c/bundle_cache/app_store/tk-shell/v0.5.4") t'
  = Ok None /\
  get_bundle_count t' = 0.
Proof. repeat split. Qed.

(** [test_SHOTGUN_BUNDLE_CACHE_USAGE_TIMESTAMP_OVERRIDE_usage] and
    [..._bad_usage] *)
Example test_TIMESTAMP_OVERRIDE_usage :
  let p := Some "/c/bundle_cache/app_store/tk-shell/v0.5.4" in
  let t := run "/c" decimal_int
             [({| timestamp_override := Some ""; clock := 1000 |}, Call_log_usage p);
              ({| timestamp_override := Some "2234"; clock := 1000 |}, Call_log_usage p)]
             [] in
  get_bundle "/c" sample_strftime p t
  = Ok (Some (mkEntry "app_store/tk-shell/v0.5.4" 1000 2234 2)) /\
  log_usage "/c" decimal_int p
    {| timestamp_override := Some "agsjhdgkasda"; clock := 1000 |} t
  = Raise ValueError.
Proof. repeat split. Qed.

(** An override beyond 64 bits is read by [int] and refused by the
    binding of the [INSERT]: [OverflowError], and nothing is written. *)
Example log_usage_override_beyond_64_bits :
  let p := Some "/c/bundle_cache/app_store/tk-shell/v0.5.4" in
  let w := {| timestamp_override := Some "9223372036854775808"; clock := 1000 |} in
  log_usage "/c" decimal_int p w [] = Raise OverflowError /\
  table_after "/c" decimal_int w (Call_log_usage p) [] = [].
Proof. split; reflexivity. Qed.

(** An entry whose last-usage time [datetime] cannot represent is stored
    and listed, and [get_bundle] raises while formatting it for the log. *)
Example get_bundle_date_out_of_range :
  let p := Some "/c/bundle_cache/app_store/tk-shell/v0.5.4" in
  let t := run "/c" decimal_int
             [({| timestamp_override := Some "99999999999999"; clock := 1000 |},
               Call_log_usage p)] [] in
  t = [("app_store/tk-shell/v0.5.4", 99999999999999, 99999999999999, 1)] /\
  get_bundle "/c" sample_strftime p t = Raise ValueError.
Proof. split; reflexivity. Qed.

(** ** Strings *)

Lemma prefix_app (a s : string) : String.prefix a (a ++ s) = true.
Proof.
  induction a as [|c a IH]; simpl.
  - now destruct s.
  - destruct (ascii_dec c c) as [_|N]; [exact IH | now elim N].
Qed.

Lemma replace_scan_skip (old new a s : string) :
  PyStr.replace_scan old new (String.length a) (a ++ s)
  = PyStr.replace_scan old new 0 s.
Proof.
  induction a as [|c a IH]; simpl.
  - destruct s as [|c s]; reflexivity.
  - exact IH.
Qed.

(** Replacing in a string that begins with a non-empty [old]: the leading
    occurrence goes and the scan goes on in what follows it. *)
Lemma replace_leading (old new s : string) :
  old <> "" ->
  PyStr.replace (old ++ s) old new = new ++ PyStr.replace s old new.
Proof.
  destruct old as [|c o]; [congruence | intros _].
  unfold PyStr.replace.
  change (String c o ++ s) with (String c (o ++ s)).
  cbn [PyStr.replace_scan].
  change (String c (o ++ s)) with (String c o ++ s).
  rewrite prefix_app.
  cbn [String.length]. rewrite Nat.sub_succ, Nat.sub_0_r.
  now rewrite replace_scan_skip.
Qed.

Lemma slice_from_app (a s : string) :
  PyStr.slice_from (String.length a) (a ++ s) = s.
Proof. induction a as [|c a IH]; simpl; [now destruct s | exact IH]. Qed.

Lemma path_join_nonempty (a b : string) : b <> "" -> os.path_join a b <> "".
Proof.
  intros Hb. unfold os.path_join.
  destruct (PyStr.startswith b os.sep); [exact Hb|].
  destruct (negb (PyStr.truthy a) || PyStr.endswith_char a "/"%char);
    destruct a; simpl; try congruence.
Qed.

Lemma bundle_cache_root_nonempty (g : string) : bundle_cache_root g <> "".
Proof. apply path_join_nonempty. discriminate. Qed.

Lemma append_empty_r (s : string) : s ++ "" = s.
Proof. induction s as [|c s IH]; simpl; congruence. Qed.

Lemma startswith_refl (s : string) : PyStr.startswith s s = true.
Proof.
  unfold PyStr.startswith.
  rewrite <- (append_empty_r s) at 2. apply prefix_app.
Qed.

(** Removing a non-empty string from itself leaves nothing. *)
Lemma replace_self (old : string) :
  old <> "" -> PyStr.replace old old "" = "".
Proof.
  intros H. rewrite <- (append_empty_r old) at 1.
  rewrite replace_leading by exact H.
  destruct old; [congruence | reflexivity].
Qed.

(** Removing a non-empty string from itself followed by a separator leaves
    the separator, or nothing when the string is the separator. *)
Lemma replace_self_sep (old : string) :
  old <> "" ->
  PyStr.replace (old ++ os.sep) old "" = os.sep \/
  PyStr.replace (old ++ os.sep) old "" = "".
Proof.
  intros H. rewrite replace_leading by exact H.
  destruct old as [|c o]; [congruence|].
  unfold PyStr.replace, os.sep. cbn [PyStr.replace_scan append].
  destruct (String.prefix (String c o) "/"); [right | left]; reflexivity.
Qed.

(** ** Path normalization *)

Section Normalization.

Variable g : string.
Variable py_int : string -> option Z.
Variable strftime_fromtimestamp : Z -> result string.

(** A path has no key at all exactly when it is absent, empty or does not
    begin with the cache root; in particular [_truncate_path] is total. *)
Lemma truncate_path_None_iff (p : option string) :
  _truncate_path g p = None <->
  p = None \/ p = Some "" \/
  exists s, p = Some s /\ PyStr.startswith s (bundle_cache_root g) = false.
Proof.
  unfold _truncate_path. split.
  - destruct p as [s|]; [|now left].
    destruct s as [|c s]; [now right; left|].
    cbn [PyStr.truthy negb orb].
    destruct (PyStr.startswith (String c s) (bundle_cache_root g)) eqn:E;
      [discriminate|].
    intros _. right; right. now exists (String c s).
  - intros [->|[->|(s & -> & E)]]; [reflexivity..|].
    rewrite E. now rewrite orb_true_r.
Qed.

(** Calls on a path without usable key change nothing and raise nothing,
    whatever the environment holds. *)
Lemma log_usage_no_key (p : option string) (init : Z) (w : World) (t : table) :
  usable_key (_truncate_path g p) = None ->
  _log_usage g py_int p init w t = Ok t.
Proof. unfold _log_usage. now intros ->. Qed.

Lemma get_bundle_no_key (p : option string) (t : table) :
  usable_key (_truncate_path g p) = None ->
  get_bundle g strftime_fromtimestamp p t = Ok None.
Proof. unfold get_bundle. now intros ->. Qed.

(** The cache root itself, and the cache root followed by a separator,
    normalize to the empty string. *)
Lemma truncate_path_root :
  _truncate_path g (Some (bundle_cache_root g)) = Some "".
Proof.
  pose proof (bundle_cache_root_nonempty g) as Hne.
  unfold _truncate_path.
  rewrite startswith_refl, (replace_self _ Hne).
  destruct (bundle_cache_root g); [congruence | reflexivity].
Qed.

Lemma truncate_path_root_sep :
  _truncate_path g (Some (bundle_cache_root g ++ os.sep)) = Some "".
Proof.
  pose proof (bundle_cache_root_nonempty g) as Hne.
  unfold _truncate_path.
  unfold PyStr.startswith at 1. rewrite prefix_app.
  replace (PyStr.truthy (bundle_cache_root g ++ os.sep)) with true
    by (destruct (bundle_cache_root g); [congruence | reflexivity]).
  cbn [negb orb].
  destruct (replace_self_sep _ Hne) as [-> | ->]; reflexivity.
Qed.

End Normalization.

(** Where the cache root does not occur again behind the leading one,
    [_truncate_path] is the normalization of the specification. *)
Lemma replace_scan_absent (old new s : string) :
  PyStr.contains s old = false -> PyStr.replace_scan old new 0 s = s.
Proof.
  induction s as [|c s IH]; [reflexivity|].
  cbn [PyStr.contains PyStr.replace_scan].
  intros H. apply orb_false_elim in H as [-> H].
  now rewrite IH.
Qed.

Lemma truncate_path_single_occurrence (g rest : string) :
  PyStr.contains rest (bundle_cache_root g) = false ->
  _truncate_path g (Some (bundle_cache_root g ++ rest))
  = normalize_spec g (Some (bundle_cache_root g ++ rest)).
Proof.
  intros H. pose proof (bundle_cache_root_nonempty g) as Hne.
  unfold _truncate_path, normalize_spec.
  rewrite replace_leading by exact Hne.
  rewrite slice_from_app. cbn [append].
  unfold PyStr.replace.
  destruct (bundle_cache_root g) as [|c r] eqn:E; [congruence|].
  now rewrite replace_scan_absent.
Qed.

(** A path made of the cache root, a separator and a non-empty relative
    path in which the cache root does not occur has that relative path as
    its usable key. *)
Lemma usable_key_under_root (g rel : string) :
  rel <> "" ->
  PyStr.contains (os.sep ++ rel) (bundle_cache_root g) = false ->
  usable_key (_truncate_path g (Some (bundle_cache_root g ++ os.sep ++ rel)))
  = Some rel.
Proof.
  intros Hrel H. rewrite truncate_path_single_occurrence by exact H.
  unfold normalize_spec.
  unfold PyStr.startswith at 1. rewrite prefix_app, slice_from_app.
  replace (PyStr.truthy (bundle_cache_root g ++ os.sep ++ rel)) with true
    by (destruct (bundle_cache_root g); reflexivity).
  cbn. destruct rel; [congruence | reflexivity].
Qed.

(** C3 (the code departs from the claim).  The claim: normalization gives
    no key exactly for an absent or empty path and for one that does not
    begin with the cache root, never raises, and otherwise returns the path
    without its leading cache root and without one leading separator.
    The first two parts hold ([truncate_path_None_iff]).  The last does not:
    [str.replace] removes every occurrence of the cache root, so with the
    cache root [/c/bundle_cache] the path
    [/c/bundle_cache/app_store/c/bundle_cache/v1] gets the key
    [app_store/v1], where the claim and the docstring of [_truncate_path]
    (a path relative to the cache root) require
    [app_store/c/bundle_cache/v1]. *)
Theorem C3_truncate_path_removes_every_occurrence :
  bundle_cache_root "/c" = "/c/bundle_cache" /\
  _truncate_path "/c" (Some "/c/bundle_cache/app_store/c/bundle_cache/v1")
  = Some "app_store/v1" /\
  normalize_spec "/c" (Some "/c/bundle_cache/app_store/c/bundle_cache/v1")
  = Some "app_store/c/bundle_cache/v1" /\
  _truncate_path "/c" (Some "/c/bundle_cache/app_store/c/bundle_cache/v1")
  <> normalize_spec "/c" (Some "/c/bundle_cache/app_store/c/bundle_cache/v1").
Proof. repeat split; try reflexivity. vm_compute. discriminate. Qed.

(** What holds of the paths without a key.  For every path that is absent
    ([None]), empty, or does not begin with the cache root as a string,
    [log_usage] and [add_unused_bundle] return normally and leave the table
    as it is, in every environment (also one whose timestamp override is no
    integer), so [get_bundle_count] is unchanged; and [get_bundle] answers
    [None] whatever the table holds. *)
Lemma path_without_root_prefix_is_noop
    (g : string) (py_int : string -> option Z)
    (strftime_fromtimestamp : Z -> result string) (p : option string) :
  p = None \/ p = Some "" \/
  (exists s, p = Some s /\ PyStr.startswith s (bundle_cache_root g) = false) ->
  forall (w : World) (t : table),
    log_usage g py_int p w t = Ok t /\
    add_unused_bundle g py_int p w t = Ok t /\
    get_bundle_count (table_after g py_int w (Call_log_usage p) t)
    = get_bundle_count t /\
    get_bundle_count (table_after g py_int w (Call_add_unused_bundle p) t)
    = get_bundle_count t /\
    get_bundle g strftime_fromtimestamp p t = Ok None.
Proof.
  intros H w t.
  apply truncate_path_None_iff in H.
  assert (K : usable_key (_truncate_path g p) = None) by now rewrite H.
  unfold table_after, perform, log_usage, add_unused_bundle.
  rewrite !(log_usage_no_key g py_int p _ w t K).
  repeat split; try reflexivity.
  now apply get_bundle_no_key.
Qed.

(** C5 (the code departs from the claim).  The claim: for every path that
    is empty, [None] or not under the cache root, [log_usage] and
    [add_unused_bundle] are silent no-ops and [get_bundle] answers absent.
    That holds of the absent and the empty path and of every path that does
    not begin with the cache root as a string
    ([path_without_root_prefix_is_noop]).  It does not hold of a path
    outside the cache root whose text begins with the text of the root:
    [_truncate_path] tests [startswith], not the directory.  With the cache
    root [/c/bundle_cache], the path
    [/c/bundle_cache_old/app_store/tk-shell/v1] lies in another directory,
    and yet it gets the key [_old/app_store/tk-shell/v1] (which, joined onto
    the root, is not the path), [log_usage] writes a row for it and
    [get_bundle] returns that entry; the docstring of [_truncate_path]
    promises [None] unless the path is in the cache root. *)
Theorem C5_path_beside_the_root_is_recorded :
  let p := Some "/c/bundle_cache_old/app_store/tk-shell/v1" in
  bundle_cache_root "/c" = "/c/bundle_cache" /\
  _truncate_path "/c" p = Some "_old/app_store/tk-shell/v1" /\
  os.path_join (bundle_cache_root "/c") "_old/app_store/tk-shell/v1"
  = "/c/bundle_cache/_old/app_store/tk-shell/v1" /\
  log_usage "/c" decimal_int p (at_time 1000) []
  = Ok [("_old/app_store/tk-shell/v1", 1000, 1000, 1)] /\
  get_bundle_count (table_after "/c" decimal_int (at_time 1000)
                      (Call_log_usage p) [])
  = get_bundle_count [] + 1 /\
  get_bundle "/c" sample_strftime p
    (table_after "/c" decimal_int (at_time 1000) (Call_log_usage p) [])
  = Ok (Some (mkEntry "_old/app_store/tk-shell/v1" 1000 1000 1)).
Proof. repeat split. Qed.

(** C10.  For the cache root itself and for the cache root followed by one
    separator, [_truncate_path] returns the empty string, which the tests
    [if truncated_path:] take as no key: [log_usage] and [add_unused_bundle]
    return normally with the table as it was (so [get_bundle_count] is
    unchanged) and [get_bundle] answers [None]. *)
Theorem C10_cache_root_has_no_usable_key
    (g : string) (py_int : string -> option Z)
    (strftime_fromtimestamp : Z -> result string) (p : string) :
  p = bundle_cache_root g \/ p = bundle_cache_root g ++ os.sep ->
  _truncate_path g (Some p) = Some "" /\
  forall (w : World) (t : table),
    log_usage g py_int (Some p) w t = Ok t /\
    add_unused_bundle g py_int (Some p) w t = Ok t /\
    get_bundle_count (table_after g py_int w (Call_log_usage (Some p)) t)
    = get_bundle_count t /\
    get_bundle_count (table_after g py_int w (Call_add_unused_bundle (Some p)) t)
    = get_bundle_count t /\
    get_bundle g strftime_fromtimestamp (Some p) t = Ok None.
Proof.
  intros H.
  assert (T : _truncate_path g (Some p) = Some "")
    by (destruct H as [-> | ->];
        [apply truncate_path_root | apply truncate_path_root_sep]).
  split; [exact T|]. intros w t.
  assert (K : usable_key (_truncate_path g (Some p)) = None) by now rewrite T.
  unfold table_after, perform, log_usage, add_unused_bundle.
  rewrite !(log_usage_no_key g py_int (Some p) _ w t K).
  repeat split; try reflexivity.
  now apply get_bundle_no_key.
Qed.

Lemma C10_cache_root_has_no_usable_key_witness :
  "/c/bundle_cache/" = bundle_cache_root "/c" ++ os.sep /\
  _truncate_path "/c" (Some "/c/bundle_cache/") = Some "" /\
  log_usage "/c" decimal_int (Some "/c/bundle_cache/") (at_time 1000) []
  = Ok [].
Proof.
  split; [reflexivity|].
  destruct (C10_cache_root_has_no_usable_key "/c" decimal_int sample_strftime
              "/c/bundle_cache/") as (H1 & H2).
  - right. reflexivity.
  - split; [exact H1 | exact (proj1 (H2 (at_time 1000) []))].
Defined.

(** ** The table: lookup, insertion, update and deletion *)


(** A key is looked up by scanning the rows: absent keys are those of no
    row. *)
Lemma find_entry_None_iff (k : string) (t : table) :
  _find_entry k t = None <-> ~ In k (map col_path t).
Proof.
  unfold _find_entry, Sql.select_by_path.
  induction t as [|r t IH]; cbn [filter map In].
  - split; [tauto | reflexivity].
  - destruct (String.eqb_spec (col_path r) k) as [E|N]; cbn [Sql.fetchone].
    + split; [discriminate | intros H; elim H; now left].
    + rewrite IH. tauto.
Qed.

Lemma find_entry_path (k : string) (t : table) (e : BundleCacheUsageDatabaseEntry) :
  _find_entry k t = Some e -> path e = k.
Proof.
  unfold _find_entry, Sql.select_by_path.
  induction t as [|r t IH]; cbn [filter]; [discriminate|].
  destruct (String.eqb_spec (col_path r) k) as [E|N]; cbn [Sql.fetchone].
  - intros [= <-]. exact E.
  - exact IH.
Qed.

Lemma find_entry_In (k : string) (t : table) (e : BundleCacheUsageDatabaseEntry) :
  _find_entry k t = Some e -> In e (map Entry_init t).
Proof.
  unfold _find_entry, Sql.select_by_path.
  induction t as [|r t IH]; cbn [filter map In]; [discriminate|].
  destruct (String.eqb (col_path r) k); cbn [Sql.fetchone].
  - intros [= <-]. now left.
  - intros H. right. now apply IH.
Qed.

Lemma find_entry_app_absent (k : string) (t : table) (r : db_record) :
  _find_entry k t = None ->
  _find_entry k (t ++ [r])%list
  = if String.eqb (col_path r) k then Some (Entry_init r) else None.
Proof.
  unfold _find_entry, Sql.select_by_path.
  induction t as [|x t IH]; cbn [filter app].
  - intros _. now destruct (String.eqb (col_path r) k).
  - destruct (String.eqb (col_path x) k); cbn [Sql.fetchone];
      [discriminate | exact IH].
Qed.

Lemma find_entry_app_other (k : string) (t : table) (r : db_record) :
  col_path r <> k -> _find_entry k (t ++ [r])%list = _find_entry k t.
Proof.
  intros N. unfold _find_entry, Sql.select_by_path.
  rewrite filter_app. cbn [filter].
  apply String.eqb_neq in N. rewrite N. now rewrite app_nil_r.
Qed.

Lemma insert_row_absent (r : db_record) (t : table) :
  _find_entry (col_path r) t = None -> Sql.insert_row r t = Ok (t ++ [r])%list.
Proof.
  rewrite find_entry_None_iff. intros H. unfold Sql.insert_row.
  destruct (existsb _ t) eqn:E; [|reflexivity].
  apply existsb_exists in E as (x & Hx & Ex).
  apply String.eqb_eq in Ex. elim H. rewrite <- Ex. now apply in_map.
Qed.

Lemma update_paths (n c : Z) (k : string) (t : table) :
  map col_path (Sql.update_rows n c k t) = map col_path t.
Proof.
  unfold Sql.update_rows. rewrite map_map. apply map_ext.
  intros r. now destruct (String.eqb (col_path r) k).
Qed.

Lemma update_length (n c : Z) (k : string) (t : table) :
  List.length (Sql.update_rows n c k t) = List.length t.
Proof. unfold Sql.update_rows. apply length_map. Qed.

Lemma find_entry_update (n c : Z) (k : string) (t : table)
    (e : BundleCacheUsageDatabaseEntry) :
  _find_entry k t = Some e ->
  _find_entry k (Sql.update_rows n c k t) = Some (mkEntry k (creation_time e) n c).
Proof.
  unfold _find_entry, Sql.select_by_path, Sql.update_rows.
  induction t as [|r t IH]; cbn [filter map]; [discriminate|].
  destruct (String.eqb_spec (col_path r) k) as [E|N].
  - cbn [col_path fst]. fold (col_path r). rewrite E, String.eqb_refl.
    cbn [Sql.fetchone]. intros [= <-]. reflexivity.
  - apply String.eqb_neq in N. rewrite N. exact IH.
Qed.

Lemma find_entry_update_other (n c : Z) (k k' : string) (t : table) :
  k' <> k -> _find_entry k' (Sql.update_rows n c k t) = _find_entry k' t.
Proof.
  intros N. unfold _find_entry, Sql.select_by_path, Sql.update_rows.
  induction t as [|r t IH]; cbn [filter map]; [reflexivity|].
  destruct (String.eqb_spec (col_path r) k) as [E|N'].
  - cbn [col_path fst]. fold (col_path r).
    assert (F : String.eqb (col_path r) k' = false)
      by (apply String.eqb_neq; congruence).
    rewrite F. exact IH.
  - destruct (String.eqb (col_path r) k'); cbn [Sql.fetchone];
      [reflexivity | exact IH].
Qed.

Lemma find_entry_delete (k : string) (t : table) :
  _find_entry k (Sql.delete k t) = None.
Proof.
  apply find_entry_None_iff. unfold Sql.delete.
  intros H. apply in_map_iff in H as (r & E & Hr).
  apply filter_In in Hr as [_ Hr].
  apply negb_true_iff, String.eqb_neq in Hr. contradiction.
Qed.

Lemma find_entry_delete_other (k k' : string) (t : table) :
  k' <> k -> _find_entry k' (Sql.delete k t) = _find_entry k' t.
Proof.
  intros N. unfold _find_entry, Sql.select_by_path, Sql.delete.
  induction t as [|r t IH]; cbn [filter]; [reflexivity|].
  destruct (String.eqb_spec (col_path r) k) as [E|N']; cbn [negb filter].
  - assert (F : String.eqb (col_path r) k' = false)
      by (apply String.eqb_neq; congruence).
    rewrite F. exact IH.
  - destruct (String.eqb (col_path r) k'); cbn [Sql.fetchone];
      [reflexivity | exact IH].
Qed.

Lemma delete_absent (k : string) (t : table) :
  _find_entry k t = None -> Sql.delete k t = t.
Proof.
  rewrite find_entry_None_iff. unfold Sql.delete.
  induction t as [|r t IH]; cbn [filter map In]; [reflexivity|].
  intros H. destruct (String.eqb_spec (col_path r) k) as [E|N].
  - elim H. now left.
  - cbn [negb]. f_equal. apply IH. tauto.
Qed.

(** With unique keys, deleting a present key removes one row. *)
Lemma delete_present_length (k : string) (t : table) :
  NoDup (map col_path t) -> In k (map col_path t) ->
  S (List.length (Sql.delete k t)) = List.length t.
Proof.
  unfold Sql.delete.
  induction t as [|r t IH]; cbn [filter map In List.length]; [tauto|].
  intros ND Hin. inversion ND as [|? ? Hr ND']; subst.
  destruct (String.eqb_spec (col_path r) k) as [E|N]; cbn [negb List.length].
  - f_equal. subst k.
    change (filter _ t) with (Sql.delete (col_path r) t).
    rewrite delete_absent; [reflexivity|].
    now apply find_entry_None_iff.
  - f_equal. apply IH; [exact ND'|]. destruct Hin; [contradiction | assumption].
Qed.

(** Integers that fit 64 bits are bound, others raise [OverflowError]
    before anything is written. *)
Lemma bind_int_cases (n : Z) :
  (Sql.int64 n = true /\ Sql.bind_int n = Ok n) \/
  (Sql.int64 n = false /\ Sql.bind_int n = Raise OverflowError).
Proof. unfold Sql.bind_int. destruct (Sql.int64 n); [left | right]; auto. Qed.

Lemma insert_absent (k : string) (c l u : Z) (t : table) :
  Sql.int64 c = true -> Sql.int64 l = true -> Sql.int64 u = true ->
  _find_entry k t = None ->
  Sql.insert (k, c, l, u) t = Ok (t ++ [(k, c, l, u)])%list.
Proof.
  intros Hc Hl Hu F. unfold Sql.insert, Sql.bind_int.
  cbn [col_path col_creation col_last_usage col_usage_count fst snd].
  rewrite Hc, Hl, Hu. cbn [bind]. now apply insert_row_absent.
Qed.

Lemma insert_absent_cases (k : string) (c l u : Z) (t : table) :
  _find_entry k t = None ->
  (Sql.int64 c = true /\ Sql.int64 l = true /\ Sql.int64 u = true /\
   Sql.insert (k, c, l, u) t = Ok (t ++ [(k, c, l, u)])%list) \/
  ((Sql.int64 c = false \/ Sql.int64 l = false \/ Sql.int64 u = false) /\
   Sql.insert (k, c, l, u) t = Raise OverflowError).
Proof.
  intros F. unfold Sql.insert, Sql.bind_int.
  cbn [col_path col_creation col_last_usage col_usage_count fst snd].
  destruct (Sql.int64 c) eqn:Hc; cbn [bind]; [|right; auto].
  destruct (Sql.int64 l) eqn:Hl; cbn [bind]; [|right; auto].
  destruct (Sql.int64 u) eqn:Hu; cbn [bind]; [|right; auto].
  left. repeat split. now apply insert_row_absent.
Qed.

Lemma update_in_range (n c : Z) (k : string) (t : table) :
  Sql.int64 n = true -> Sql.int64 c = true ->
  Sql.update n c k t = Ok (Sql.update_rows n c k t).
Proof.
  intros Hn Hc. unfold Sql.update, Sql.bind_int. now rewrite Hn, Hc.
Qed.

Lemma update_cases (n c : Z) (k : string) (t : table) :
  (Sql.int64 n = true /\ Sql.int64 c = true /\
   Sql.update n c k t = Ok (Sql.update_rows n c k t)) \/
  ((Sql.int64 n = false \/ Sql.int64 c = false) /\
   Sql.update n c k t = Raise OverflowError).
Proof.
  unfold Sql.update, Sql.bind_int.
  destruct (Sql.int64 n); cbn [bind]; [|right; auto].
  destruct (Sql.int64 c); cbn [bind]; [left | right]; auto.
Qed.

(** ** Recording a use *)

Lemma int64_iff (n : Z) :
  Sql.int64 n = true <-> - 9223372036854775808 <= n <= 9223372036854775807.
Proof.
  unfold Sql.int64. rewrite andb_true_iff, !Z.leb_le.
  change (2 ^ 63) with 9223372036854775808. lia.
Qed.

Section Recording.

Variable g : string.
Variable py_int : string -> option Z.
Variable strftime_fromtimestamp : Z -> result string.

(** [get_bundle] returns the entry found under the key where the date of
    its last use can be formatted, and [None] where there is no entry. *)
Lemma get_bundle_found (p : option string) (k : string) (t : table)
    (e : BundleCacheUsageDatabaseEntry) (date : string) :
  usable_key (_truncate_path g p) = Some k ->
  _find_entry k t = Some e ->
  strftime_fromtimestamp (last_usage_time e) = Ok date ->
  get_bundle g strftime_fromtimestamp p t = Ok (Some e).
Proof.
  intros K F D. unfold get_bundle. rewrite K, F.
  unfold Entry_str, last_usage_date_formatted, _format_date_from_timestamp.
  now rewrite D.
Qed.

Lemma get_bundle_absent (p : option string) (k : string) (t : table) :
  usable_key (_truncate_path g p) = Some k ->
  _find_entry k t = None ->
  get_bundle g strftime_fromtimestamp p t = Ok None.
Proof. intros K F. unfold get_bundle. now rewrite K, F. Qed.

Lemma get_bundle_Some (p : option string) (t : table)
    (e : BundleCacheUsageDatabaseEntry) :
  get_bundle g strftime_fromtimestamp p t = Ok (Some e) ->
  exists k, usable_key (_truncate_path g p) = Some k /\ _find_entry k t = Some e.
Proof.
  unfold get_bundle.
  destruct (usable_key (_truncate_path g p)) as [k|]; [|discriminate].
  destruct (_find_entry k t) as [b|] eqn:F; [|discriminate].
  destruct (Entry_str strftime_fromtimestamp b); cbn [bind]; [|discriminate].
  intros [= <-]. now exists k.
Qed.

(** The first use of a key appends its row. *)
Lemma log_usage_insert (p : option string) (k : string) (init now : Z)
    (w : World) (t : table) :
  usable_key (_truncate_path g p) = Some k ->
  _get_timestamp py_int w = Ok now ->
  _find_entry k t = None ->
  Sql.int64 now = true -> Sql.int64 init = true ->
  _log_usage g py_int p init w t = Ok (t ++ [(k, now, now, init)])%list.
Proof.
  intros K T F Hn Hi. unfold _log_usage. rewrite K, T. cbn [bind]. rewrite F.
  now apply insert_absent.
Qed.

(** A later use rewrites the last-usage time and the counter of its row. *)
Lemma log_usage_update (p : option string) (k : string) (init now : Z)
    (w : World) (t : table) (e : BundleCacheUsageDatabaseEntry) :
  usable_key (_truncate_path g p) = Some k ->
  _get_timestamp py_int w = Ok now ->
  _find_entry k t = Some e ->
  Sql.int64 now = true -> Sql.int64 (usage_count e + 1) = true ->
  _log_usage g py_int p init w t
  = Ok (Sql.update_rows now (usage_count e + 1) k t).
Proof.
  intros K T F Hn Hc. unfold _log_usage. rewrite K, T. cbn [bind]. rewrite F.
  rewrite (find_entry_path _ _ _ F). now apply update_in_range.
Qed.

(** A failing timestamp source fails the call. *)
Lemma log_usage_raise (p : option string) (k : string) (init : Z)
    (w : World) (t : table) (x : exn) :
  usable_key (_truncate_path g p) = Some k ->
  _get_timestamp py_int w = Raise x ->
  _log_usage g py_int p init w t = Raise x.
Proof. intros K T. unfold _log_usage. now rewrite K, T. Qed.



End Recording.



(** ** What one call does to the table *)

Section Calls.

Variable g : string.
Variable py_int : string -> option Z.

(** The four outcomes of a call: nothing written, rows deleted, one row
    updated with the timestamp drawn, one row appended with it. *)
Lemma table_after_cases (w : World) (c : call) (t : table) :
  table_after g py_int w c t = t \/
  (exists e, c = Call_delete_entry e /\
             table_after g py_int w c t = Sql.delete (path e) t) \/
  (exists k now e,
      timestamp_drawn g py_int w c = Some now /\
      _find_entry k t = Some e /\
      table_after g py_int w c t
      = Sql.update_rows now (usage_count e + 1) k t) \/
  (exists k now init,
      timestamp_drawn g py_int w c = Some now /\
      _find_entry k t = None /\
      table_after g py_int w c t = (t ++ [(k, now, now, init)])%list).
Proof.
  unfold table_after. destruct c as [p|p|e]; cbn [perform timestamp_drawn].
  3: { right; left. now exists e. }
  all: unfold log_usage, add_unused_bundle, _log_usage;
    destruct (usable_key (_truncate_path g p)) as [k|]; [|now left];
    destruct (_get_timestamp py_int w) as [now|x]; cbn [bind]; [|now left];
    destruct (_find_entry k t) as [e|] eqn:F;
    [ rewrite (find_entry_path _ _ _ F);
      destruct (update_cases now (usage_count e + 1) k t)
        as [(_ & _ & ->)|(_ & ->)]; [|now left];
      right; right; left; exists k, now, e; auto
    | match goal with
      | |- context [Sql.insert (_, _, _, ?i) _] =>
          destruct (insert_absent_cases k now now i t F)
            as [(_ & _ & _ & ->)|(_ & ->)]; [|now left];
          right; right; right; exists k, now, i; auto
      end ].
Qed.

Lemma NoDup_map_filter {A B : Type} (f : A -> B) (q : A -> bool) (l : list A) :
  NoDup (map f l) -> NoDup (map f (filter q l)).
Proof.
  induction l as [|a l IH]; cbn [map filter]; [auto|].
  intros ND. inversion ND as [|? ? Ha ND']; subst.
  destruct (q a); cbn [map]; [|auto].
  constructor; [|auto].
  intros H. apply Ha. apply in_map_iff in H as (x & E & Hx).
  apply filter_In in Hx as [Hx _]. rewrite <- E. now apply in_map.
Qed.

(** No call gives two rows the same path. *)
Lemma table_after_unique (w : World) (c : call) (t : table) :
  NoDup (map col_path t) -> NoDup (map col_path (table_after g py_int w c t)).
Proof.
  intros ND.
  destruct (table_after_cases w c t)
    as [->|[(e & _ & ->)|[(k & now & e & _ & _ & ->)|(k & now & i & _ & F & ->)]]].
  - exact ND.
  - now apply NoDup_map_filter.
  - now rewrite update_paths.
  - rewrite map_app. cbn [map col_path fst].
    apply find_entry_None_iff in F.
    apply NoDup_app; repeat split; auto.
    + constructor; [intros [] | constructor].
    + intros x Hx [<-|[]]. contradiction.
Qed.

Lemma run_unique (trace : list (World * call)) (t : table) :
  NoDup (map col_path t) -> NoDup (map col_path (run g py_int trace t)).
Proof.
  revert t. induction trace as [|[w c] trace IH]; intros t ND; [exact ND|].
  cbn [run]. apply IH. now apply table_after_unique.
Qed.

Lemma reachable_unique (t : table) :
  reachable g py_int t -> NoDup (map col_path t).
Proof. intros [trace ->]. apply run_unique. constructor. Qed.

End Calls.

(** C9.  Whatever sequence of [log_usage], [add_unused_bundle] and
    [delete_entry] calls is made on the empty table, in whatever
    environments, no two rows of the resulting table have the same path. *)
Theorem C9_paths_are_unique
    (g : string) (py_int : string -> option Z) (trace : list (World * call)) :
  NoDup (map col_path (run g py_int trace [])).
Proof. apply run_unique. constructor. Qed.

(** ** Creation time and last-usage time *)

Section Timestamps.

Variable g : string.
Variable py_int : string -> option Z.

(** While the timestamp source does not go back, every row keeps its
    creation time at or before its last-usage time, and its last-usage time
    at or before every timestamp still to come. *)
Lemma run_creation_le_last_usage (trace : list (World * call)) :
  forall t : table,
    (forall r, In r t ->
       col_creation r <= col_last_usage r /\
       Forall (Z.le (col_last_usage r)) (timestamps_drawn g py_int trace)) ->
    StronglySorted Z.le (timestamps_drawn g py_int trace) ->
    forall r, In r (run g py_int trace t) -> col_creation r <= col_last_usage r.
Proof.
  induction trace as [|[w c] trace IH]; intros t Inv Mono r Hr.
  - now apply Inv.
  - cbn [run] in Hr. cbn [timestamps_drawn] in Inv, Mono.
    revert r Hr. apply IH.
    + intros r Hr.
      destruct (table_after_cases g py_int w c t)
        as [E|[(e & -> & E)|[(k & now & e & D & F & E)|(k & now & i & D & F & E)]]];
        rewrite E in Hr; clear E.
      * destruct (Inv r Hr) as [I1 I2]. split; [exact I1|].
        destruct (timestamp_drawn g py_int w c); [now inversion I2 | exact I2].
      * apply filter_In in Hr as [Hr _]. exact (Inv r Hr).
      * rewrite D in Inv, Mono. inversion Mono as [|? ? _ Hnow]; subst.
        unfold Sql.update in Hr. apply in_map_iff in Hr as (r0 & E & Hr0).
        destruct (Inv r0 Hr0) as [I1 I2]. inversion I2 as [|? ? I3 I4]; subst.
        destruct (String.eqb (col_path r0) k).
        -- cbn [col_creation col_last_usage fst snd]. split; [|exact Hnow].
           fold (col_creation r0). lia.
        -- split; assumption.
      * rewrite D in Inv, Mono. inversion Mono as [|? ? _ Hnow]; subst.
        apply in_app_or in Hr as [Hr|[<-|[]]].
        -- destruct (Inv r Hr) as [I1 I2]. split; [exact I1|].
           now inversion I2.
        -- cbn [col_creation col_last_usage fst snd]. split; [lia | exact Hnow].
    + destruct (timestamp_drawn g py_int w c); [now inversion Mono | exact Mono].
Qed.

End Timestamps.

(** C2, as the claim states it, fails: the override first unset with the
    clock at 2000, then set to 1000, leaves the entry of the path created at
    2000 and last used at 1000. *)
Lemma C2_creation_after_last_usage :
  ~ (forall (g : string) (py_int : string -> option Z)
            (trace : list (World * call)) (e : BundleCacheUsageDatabaseEntry),
        In e (map Entry_init (run g py_int trace [])) ->
        creation_time e <= last_usage_time e).
Proof.
  intros H.
  specialize (H "/c" decimal_int
    [ (at_time 2000, Call_log_usage (Some "/c/bundle_cache/app_store/tk-shell/v1"));
      ({| timestamp_override := Some "1000"; clock := 2001 |},
       Call_log_usage (Some "/c/bundle_cache/app_store/tk-shell/v1")) ]
    (mkEntry "app_store/tk-shell/v1" 2000 1000 2)).
  cbn [creation_time last_usage_time] in H.
  assert (2000 <= 1000); [apply H; vm_compute; now left | lia].
Qed.

(** C2, amended.  After any sequence of [log_usage], [add_unused_bundle] and
    [delete_entry] calls on the empty table along which the values returned
    by [_get_timestamp] never decrease, every entry has its creation time at
    or before its last-usage time. *)
Theorem C2_creation_le_last_usage_monotone
    (g : string) (py_int : string -> option Z) (trace : list (World * call)) :
  Sorted Z.le (timestamps_drawn g py_int trace) ->
  forall e, In e (map Entry_init (run g py_int trace [])) ->
            creation_time e <= last_usage_time e.
Proof.
  intros S e He. apply in_map_iff in He as (r & <- & Hr).
  cbn [Entry_init creation_time last_usage_time].
  apply (run_creation_le_last_usage g py_int trace []); auto.
  - intros ? [].
  - apply Sorted_StronglySorted; [|exact S].
    intros x y z. apply Z.le_trans.
Qed.

Lemma C2_creation_le_last_usage_monotone_witness :
  let trace :=
    [ (at_time 1000, Call_add_unused_bundle (Some "/c/bundle_cache/app_store/tk-shell/v1"));
      ({| timestamp_override := Some "1500"; clock := 1200 |},
       Call_log_usage (Some "/c/bundle_cache/app_store/tk-shell/v1"));
      (at_time 1500, Call_log_usage (Some "/c/bundle_cache/git/tk-core/v2")) ] in
  timestamps_drawn "/c" decimal_int trace = [1000; 1500; 1500] /\
  forall e, In e (map Entry_init (run "/c" decimal_int trace [])) ->
            creation_time e <= last_usage_time e.
Proof.
  intros trace. split; [reflexivity|].
  apply (C2_creation_le_last_usage_monotone "/c" decimal_int trace).
  vm_compute. repeat constructor; discriminate.
Defined.

(** ** Pre-population *)

(** C4.  Let [p] be a path with the usable key [k], and let the times of
    the calls fit the 64-bit integer column.  Where [k] has no row,
    [add_unused_bundle] at time [now] appends the row with usage count 0 and
    creation and last-usage time [now].  Where [k] has a row,
    [add_unused_bundle] is [log_usage]: the same result in every case, the
    last-usage time set and the counter one higher.  And
    [add_unused_bundle] on an absent key followed by one [log_usage] leaves
    the usage count 1.  [get_bundle] returns these entries wherever the date
    of the last use can be formatted. *)
Theorem C4_add_unused_bundle_starts_at_zero
    (g : string) (py_int : string -> option Z)
    (strftime_fromtimestamp : Z -> result string)
    (p : option string) (k : string)
    (t : table) (w w' : World) (now now' : Z) :
  usable_key (_truncate_path g p) = Some k ->
  _get_timestamp py_int w = Ok now ->
  _get_timestamp py_int w' = Ok now' ->
  Sql.int64 now = true ->
  Sql.int64 now' = true ->
  (_find_entry k t = None ->
   exists t1 t2,
     add_unused_bundle g py_int p w t = Ok t1 /\
     _find_entry k t1 = Some (mkEntry k now now 0) /\
     (forall date, strftime_fromtimestamp now = Ok date ->
        get_bundle g strftime_fromtimestamp p t1
        = Ok (Some (mkEntry k now now 0))) /\
     get_bundle_count t1 = get_bundle_count t + 1 /\
     log_usage g py_int p w' t1 = Ok t2 /\
     _find_entry k t2 = Some (mkEntry k now now' 1) /\
     (forall date, strftime_fromtimestamp now' = Ok date ->
        get_bundle g strftime_fromtimestamp p t2
        = Ok (Some (mkEntry k now now' 1)))) /\
  (forall e, _find_entry k t = Some e ->
     add_unused_bundle g py_int p w t = log_usage g py_int p w t /\
     (Sql.int64 (usage_count e + 1) = true ->
      exists t1,
        add_unused_bundle g py_int p w t = Ok t1 /\
        _find_entry k t1
        = Some (mkEntry k (creation_time e) now (usage_count e + 1)) /\
        (forall date, strftime_fromtimestamp now = Ok date ->
           get_bundle g strftime_fromtimestamp p t1
           = Ok (Some (mkEntry k (creation_time e) now (usage_count e + 1)))) /\
        get_bundle_count t1 = get_bundle_count t)).
Proof.
  intros K T T' Hn Hn'. split.
  - intros F.
    assert (F1 : _find_entry k (t ++ [(k, now, now, 0)])%list
                 = Some (mkEntry k now now 0)).
    { rewrite find_entry_app_absent by exact F.
      cbn [col_path fst]. now rewrite String.eqb_refl. }
    pose proof (find_entry_update now' (0 + 1) k _ _ F1) as F2.
    cbn [creation_time] in F2.
    exists (t ++ [(k, now, now, 0)])%list,
           (Sql.update_rows now' (0 + 1) k (t ++ [(k, now, now, 0)])%list).
    unfold add_unused_bundle, log_usage.
    rewrite (log_usage_insert g py_int p k 0 now w t K T F Hn eq_refl).
    rewrite (log_usage_update g py_int p k 1 now' w' _ _ K T' F1 Hn' eq_refl).
    split; [reflexivity|]. split; [exact F1|]. split.
    { intros date D. now apply get_bundle_found with (k := k) (date := date). }
    split.
    { unfold get_bundle_count, Sql.count. rewrite length_app.
      cbn [List.length]. lia. }
    split; [reflexivity|]. split; [exact F2|].
    intros date D. now apply get_bundle_found with (k := k) (date := date).
  - intros e F. split.
    + unfold add_unused_bundle, log_usage, _log_usage.
      now rewrite K, T, F.
    + intros Hc.
      pose proof (find_entry_update now (usage_count e + 1) k t e F) as F1.
      exists (Sql.update_rows now (usage_count e + 1) k t).
      unfold add_unused_bundle.
      rewrite (log_usage_update g py_int p k 0 now w t e K T F Hn Hc).
      split; [reflexivity|]. split; [exact F1|]. split.
      { intros date D. now apply get_bundle_found with (k := k) (date := date). }
      unfold get_bundle_count, Sql.count. now rewrite update_length.
Qed.

Lemma C4_add_unused_bundle_starts_at_zero_witness :
  exists t1 t2,
    add_unused_bundle "/c" decimal_int
      (Some "/c/bundle_cache/app_store/tk-shell/v1") (at_time 1000) [] = Ok t1 /\
    _find_entry "app_store/tk-shell/v1" t1
    = Some (mkEntry "app_store/tk-shell/v1" 1000 1000 0) /\
    get_bundle_count t1 = get_bundle_count [] + 1 /\
    log_usage "/c" decimal_int
      (Some "/c/bundle_cache/app_store/tk-shell/v1") (at_time 2000) t1 = Ok t2 /\
    get_bundle "/c" sample_strftime
      (Some "/c/bundle_cache/app_store/tk-shell/v1") t2
    = Ok (Some (mkEntry "app_store/tk-shell/v1" 1000 2000 1)).
Proof.
  destruct (proj1 (C4_add_unused_bundle_starts_at_zero "/c" decimal_int
                     sample_strftime
                     (Some "/c/bundle_cache/app_store/tk-shell/v1")
                     "app_store/tk-shell/v1" [] (at_time 1000) (at_time 2000)
                     1000 2000 eq_refl eq_refl eq_refl eq_refl eq_refl) eq_refl)
    as (t1 & t2 & A & F1 & _ & C & L & _ & G).
  exists t1, t2. repeat split; try assumption.
  exact (G "2000" eq_refl).
Defined.

(** ** Stale entries *)



(** ** Deletion *)

(** C7.  On every table the ledger can hold, [delete_entry] returns
    normally.  Where the path of the entry has a row, that row and no other
    goes: the path is no longer found, [get_bundle] answers [None] for every
    path with this key, every other key is found as before and
    [get_bundle_count] is one less.  Where the path has no row, the table is
    left as it is. *)
Theorem C7_delete_entry_removes_one_row
    (g : string) (py_int : string -> option Z)
    (strftime_fromtimestamp : Z -> result string) (t : table)
    (bundle : BundleCacheUsageDatabaseEntry) :
  reachable g py_int t ->
  exists t',
    delete_entry bundle t = Ok t' /\
    (_find_entry (path bundle) t <> None ->
       _find_entry (path bundle) t' = None /\
       (forall p, usable_key (_truncate_path g p) = Some (path bundle) ->
                  get_bundle g strftime_fromtimestamp p t' = Ok None) /\
       (forall k, k <> path bundle -> _find_entry k t' = _find_entry k t) /\
       get_bundle_count t' = get_bundle_count t - 1) /\
    (_find_entry (path bundle) t = None ->
       t' = t /\ get_bundle_count t' = get_bundle_count t).
Proof.
  intros R. exists (Sql.delete (path bundle) t).
  split; [reflexivity|]. split.
  - intros F. repeat split.
    + apply find_entry_delete.
    + intros p K. apply get_bundle_absent with (k := path bundle);
        [exact K | apply find_entry_delete].
    + intros k N. now apply find_entry_delete_other.
    + unfold get_bundle_count, Sql.count.
      rewrite <- (delete_present_length (path bundle) t).
      * lia.
      * exact (reachable_unique g py_int t R).
      * rewrite find_entry_None_iff in F.
        destruct (in_dec string_dec (path bundle) (map col_path t)); tauto.
  - intros F. rewrite (delete_absent _ _ F). split; reflexivity.
Qed.

Lemma C7_delete_entry_removes_one_row_witness :
  let t := run "/c" decimal_int
             [ (at_time 1000, Call_log_usage (Some "/c/bundle_cache/app_store/tk-shell/v1"));
               (at_time 1200, Call_log_usage (Some "/c/bundle_cache/git/tk-core/v2")) ]
             [] in
  exists t',
    delete_entry (mkEntry "app_store/tk-shell/v1" 1513635533 1513636533 1) t
    = Ok t' /\
    get_bundle "/c" sample_strftime
      (Some "/c/bundle_cache/app_store/tk-shell/v1") t' = Ok None /\
    get_bundle_count t' = 1.
Proof.
  intros t.
  destruct (C7_delete_entry_removes_one_row "/c" decimal_int sample_strftime t
              (mkEntry "app_store/tk-shell/v1" 1513635533 1513636533 1))
    as (t' & D & P & _).
  - eexists. reflexivity.
  - exists t'. split; [exact D|].
    destruct P as (_ & G & _ & C); [discriminate|].
    split; [now apply G | exact C].
Defined.

(** ** The timestamp source *)

(** C8.  With the override set to a non-empty string on which [int] raises,
    [_get_timestamp] raises [ValueError], and so do [log_usage] and
    [add_unused_bundle] on every path with a usable key (the calls that ask
    for a timestamp), on every table.  With the override unset or empty,
    [_get_timestamp] returns the clock reading.  With the override a
    non-empty string that [int] reads as [n], it returns [n]. *)
Theorem C8_timestamp_override
    (g : string) (py_int : string -> option Z) (w : World) :
  (forall s, timestamp_override w = Some s -> s <> "" -> py_int s = None ->
     _get_timestamp py_int w = Raise ValueError /\
     forall p k t, usable_key (_truncate_path g p) = Some k ->
       log_usage g py_int p w t = Raise ValueError /\
       add_unused_bundle g py_int p w t = Raise ValueError) /\
  (timestamp_override w = None \/ timestamp_override w = Some "" ->
     _get_timestamp py_int w = Ok (clock w)) /\
  (forall s n, timestamp_override w = Some s -> s <> "" -> py_int s = Some n ->
     _get_timestamp py_int w = Ok n).
Proof.
  assert (Bad : forall s, timestamp_override w = Some s -> s <> "" ->
                          py_int s = None ->
                          _get_timestamp py_int w = Raise ValueError).
  { intros s E Hs P. unfold _get_timestamp. rewrite E.
    destruct s; [congruence|]. cbn. now rewrite P. }
  split; [|split].
  - intros s E Hs P. split; [now apply (Bad s)|].
    intros p k t K.
    split; apply log_usage_raise with (k := k); auto; now apply (Bad s).
  - unfold _get_timestamp. intros [-> | ->]; reflexivity.
  - unfold _get_timestamp. intros s n -> Hs ->.
    destruct s; [congruence | reflexivity].
Qed.

Lemma C8_timestamp_override_witness :
  let w := {| timestamp_override := Some "agsjhdgkasda"; clock := 1000 |} in
  decimal_int "agsjhdgkasda" = None /\
  _get_timestamp decimal_int w = Raise ValueError /\
  log_usage "/c" decimal_int (Some "/c/bundle_cache/app_store/tk-shell/v1") w
    [("app_store/tk-shell/v1", 900, 900, 1)]
  = Raise ValueError.
Proof.
  intros w. split; [reflexivity|].
  destruct (C8_timestamp_override "/c" decimal_int w) as (B & _ & _).
  destruct (B "agsjhdgkasda" eq_refl) as (T & L); [discriminate | reflexivity |].
  split; [exact T|].
  exact (proj1 (L (Some "/c/bundle_cache/app_store/tk-shell/v1")
                  "app_store/tk-shell/v1" _ eq_refl)).
Defined.

(** * Further properties of the ledger *)

(** ** The cache root and the paths below it *)

Lemma endswith_char_app (a b : string) (c : ascii) :
  b <> "" -> PyStr.endswith_char (a ++ b) c = PyStr.endswith_char b c.
Proof.
  intros Hb. induction a as [|x a IH]; [reflexivity|].
  cbn [append PyStr.endswith_char].
  destruct (a ++ b) eqn:E; [|exact IH].
  destruct a; [cbn in E; congruence | discriminate].
Qed.

(** The cache root never ends with a separator. *)
Lemma bundle_cache_root_no_trailing_sep (g : string) :
  PyStr.endswith_char (bundle_cache_root g) "/"%char = false.
Proof.
  unfold bundle_cache_root, os.path_join.
  change (PyStr.startswith "bundle_cache" os.sep) with false. cbv iota.
  destruct (negb (PyStr.truthy g) || PyStr.endswith_char g "/"%char).
  - now rewrite endswith_char_app.
  - change (g ++ os.sep ++ "bundle_cache") with (g ++ "/bundle_cache").
    now rewrite endswith_char_app.
Qed.

(** Joining a relative path onto the cache root puts one separator between
    them. *)
Lemma path_join_under_root (g rel : string) :
  PyStr.startswith rel os.sep = false ->
  os.path_join (bundle_cache_root g) rel = bundle_cache_root g ++ os.sep ++ rel.
Proof.
  intros H. unfold os.path_join at 1. rewrite H.
  rewrite bundle_cache_root_no_trailing_sep.
  pose proof (bundle_cache_root_nonempty g).
  destruct (bundle_cache_root g); [congruence | reflexivity].
Qed.

(** X1.  [_truncate_path] undoes [os.path.join] with the cache root: for a
    relative path that does not begin with a separator and in which (with
    the separator before it) the cache root does not occur, the joined path
    is the root, one separator and the relative path, its key is the
    relative path, and joining the key onto the root gives the path back. *)
Theorem X1_truncate_path_inverts_join (g rel : string) :
  PyStr.startswith rel os.sep = false ->
  PyStr.contains (os.sep ++ rel) (bundle_cache_root g) = false ->
  let bundle_path := os.path_join (bundle_cache_root g) rel in
  bundle_path = bundle_cache_root g ++ os.sep ++ rel /\
  _truncate_path g (Some bundle_path) = Some rel /\
  option_map (os.path_join (bundle_cache_root g))
    (_truncate_path g (Some bundle_path))
  = Some bundle_path.
Proof.
  intros Hsep Hocc bundle_path.
  assert (J : bundle_path = bundle_cache_root g ++ os.sep ++ rel)
    by now apply path_join_under_root.
  assert (T : _truncate_path g (Some bundle_path) = Some rel).
  { rewrite J, truncate_path_single_occurrence by exact Hocc.
    unfold normalize_spec.
    unfold PyStr.startswith at 1. rewrite prefix_app, slice_from_app.
    replace (PyStr.truthy (bundle_cache_root g ++ os.sep ++ rel)) with true
      by (destruct (bundle_cache_root g); reflexivity).
    cbn. now destruct rel. }
  split; [exact J|]. split; [exact T|].
  rewrite T. reflexivity.
Qed.

Lemma X1_truncate_path_inverts_join_witness :
  os.path_join (bundle_cache_root "/c") "app_store/tk-shell/v0.5.4"
  = "/c/bundle_cache/app_store/tk-shell/v0.5.4" /\
  _truncate_path "/c" (Some "/c/bundle_cache/app_store/tk-shell/v0.5.4")
  = Some "app_store/tk-shell/v0.5.4".
Proof.
  destruct (X1_truncate_path_inverts_join "/c" "app_store/tk-shell/v0.5.4")
    as (J & T & _); [reflexivity | reflexivity |].
  split; [exact J | exact T].
Defined.

(** ** One recording call, key by key *)

Lemma usable_key_nonempty (o : option string) (k : string) :
  usable_key o = Some k -> k <> "".
Proof.
  destruct o as [s|]; [|discriminate]. cbn.
  destruct s; [discriminate|]. intros [= <-]. discriminate.
Qed.

(** X3.  A recording call ([log_usage] with initial count 1,
    [add_unused_bundle] with 0) on a path with a usable key, to which the
    timestamp source answers, and whose timestamp and new usage count fit
    the 64-bit integer column, returns normally, on any table.  Afterwards
    its key holds the entry found before with the new last-usage time and
    one more use, or a new entry; every other key holds what it held; and
    [get_bundle_count] is one higher when the key had no row and unchanged
    when it had one. *)
Theorem X3_recording_touches_one_key
    (g : string) (py_int : string -> option Z) (p : option string) (k : string)
    (initial_usage_count now : Z) (w : World) (t : table) :
  usable_key (_truncate_path g p) = Some k ->
  _get_timestamp py_int w = Ok now ->
  Sql.int64 now = true ->
  Sql.int64 (usage_count (recorded k initial_usage_count now (_find_entry k t)))
  = true ->
  exists t',
    _log_usage g py_int p initial_usage_count w t = Ok t' /\
    _find_entry k t'
    = Some (recorded k initial_usage_count now (_find_entry k t)) /\
    (forall k', k' <> k -> _find_entry k' t' = _find_entry k' t) /\
    get_bundle_count t'
    = get_bundle_count t
      + match _find_entry k t with Some _ => 0 | None => 1 end.
Proof.
  intros K T Hn Hc. destruct (_find_entry k t) as [e|] eqn:F;
    cbn [recorded usage_count] in Hc.
  - exists (Sql.update_rows now (usage_count e + 1) k t).
    split; [now apply log_usage_update|].
    split; [now apply find_entry_update|].
    split; [intros k' N; now apply find_entry_update_other|].
    unfold get_bundle_count, Sql.count. rewrite update_length. lia.
  - exists (t ++ [(k, now, now, initial_usage_count)])%list.
    split; [now apply log_usage_insert|].
    split.
    { rewrite find_entry_app_absent by exact F.
      cbn [col_path fst]. now rewrite String.eqb_refl. }
    split.
    { intros k' N. apply find_entry_app_other. cbn [col_path fst]. congruence. }
    unfold get_bundle_count, Sql.count. rewrite length_app. cbn [List.length]. lia.
Qed.

Lemma X3_recording_touches_one_key_witness :
  let t := [("git/tk-core/v2", 10, 20, 3); ("app_store/tk-shell/v1", 30, 40, 5)] in
  exists t',
    _log_usage "/c" decimal_int (Some "/c/bundle_cache/app_store/tk-shell/v1")
      1 (at_time 50) t = Ok t' /\
    _find_entry "app_store/tk-shell/v1" t'
    = Some (mkEntry "app_store/tk-shell/v1" 30 50 6) /\
    _find_entry "git/tk-core/v2" t' = Some (mkEntry "git/tk-core/v2" 10 20 3) /\
    get_bundle_count t' = 2.
Proof.
  intros t.
  destruct (X3_recording_touches_one_key "/c" decimal_int
              (Some "/c/bundle_cache/app_store/tk-shell/v1")
              "app_store/tk-shell/v1" 1 50 (at_time 50) t
              eq_refl eq_refl eq_refl eq_refl)
    as (t' & R & F & O & C).
  exists t'. split; [exact R|]. split; [exact F|].
  split; [rewrite O; [reflexivity | discriminate] | exact C].
Defined.

(** X4.  No call changes the creation time of an entry that is there before
    and after it, nor its path, and no call lowers its usage count: the
    count stays or goes up by one. *)
Theorem X4_creation_time_is_kept
    (g : string) (py_int : string -> option Z) (w : World) (c : call)
    (t : table) (k : string) (e e' : BundleCacheUsageDatabaseEntry) :
  _find_entry k t = Some e ->
  _find_entry k (table_after g py_int w c t) = Some e' ->
  path e' = path e /\
  creation_time e' = creation_time e /\
  (usage_count e' = usage_count e \/ usage_count e' = usage_count e + 1).
Proof.
  intros F F'.
  destruct (table_after_cases g py_int w c t)
    as [E|[(b & _ & E)|[(k0 & now & e0 & _ & F0 & E)|(k0 & now & i & _ & F0 & E)]]];
    rewrite E in F'; clear E.
  - rewrite F in F'. injection F' as <-. auto.
  - destruct (string_dec k (path b)) as [->|N].
    + rewrite find_entry_delete in F'. discriminate.
    + rewrite find_entry_delete_other in F' by exact N.
      rewrite F in F'. injection F' as <-. auto.
  - destruct (string_dec k k0) as [->|N].
    + rewrite (find_entry_update now _ k0 t e0 F0) in F'.
      rewrite F in F0. injection F0 as <-. injection F' as <-.
      cbn. rewrite (find_entry_path _ _ _ F). auto.
    + rewrite find_entry_update_other in F' by exact N.
      rewrite F in F'. injection F' as <-. auto.
  - destruct (string_dec k k0) as [->|N]; [congruence|].
    rewrite find_entry_app_other in F' by (cbn [col_path fst]; congruence).
    rewrite F in F'. injection F' as <-. auto.
Qed.

Lemma X4_creation_time_is_kept_witness :
  let t := [("app_store/tk-shell/v1", 30, 40, 5)] in
  let t' := table_after "/c" decimal_int
              {| timestamp_override := Some "7"; clock := 50 |}
              (Call_add_unused_bundle (Some "/c/bundle_cache/app_store/tk-shell/v1"))
              t in
  _find_entry "app_store/tk-shell/v1" t'
  = Some (mkEntry "app_store/tk-shell/v1" 30 7 6) /\
  creation_time (mkEntry "app_store/tk-shell/v1" 30 7 6) = 30.
Proof.
  intros t t'. split; [reflexivity|].
  exact (proj1 (proj2 (X4_creation_time_is_kept "/c" decimal_int
                         {| timestamp_override := Some "7"; clock := 50 |}
                         (Call_add_unused_bundle
                            (Some "/c/bundle_cache/app_store/tk-shell/v1"))
                         t "app_store/tk-shell/v1"
                         (mkEntry "app_store/tk-shell/v1" 30 40 5)
                         (mkEntry "app_store/tk-shell/v1" 30 7 6)
                         eq_refl eq_refl))).
Defined.

(** X5.  Deleting an entry forgets its history: a [log_usage] that follows
    [delete_entry] on the same key, at a time that fits the 64-bit integer
    column, leaves under the key a new entry with usage count 1 whose
    creation and last-usage time are the time of that call, whatever the
    deleted row held; [get_bundle] returns it where the date of that time
    can be formatted. *)
Theorem X5_delete_then_log_usage_restarts
    (g : string) (py_int : string -> option Z)
    (strftime_fromtimestamp : Z -> result string) (p : option string)
    (bundle : BundleCacheUsageDatabaseEntry) (w : World) (now : Z) (t : table) :
  usable_key (_truncate_path g p) = Some (path bundle) ->
  _get_timestamp py_int w = Ok now ->
  Sql.int64 now = true ->
  exists t1 t2,
    delete_entry bundle t = Ok t1 /\
    log_usage g py_int p w t1 = Ok t2 /\
    _find_entry (path bundle) t2 = Some (mkEntry (path bundle) now now 1) /\
    (forall date, strftime_fromtimestamp now = Ok date ->
       get_bundle g strftime_fromtimestamp p t2
       = Ok (Some (mkEntry (path bundle) now now 1))).
Proof.
  intros K T Hn.
  exists (Sql.delete (path bundle) t),
         (Sql.delete (path bundle) t ++ [(path bundle, now, now, 1)])%list.
  pose proof (find_entry_delete (path bundle) t) as F.
  assert (F2 : _find_entry (path bundle)
                 (Sql.delete (path bundle) t ++ [(path bundle, now, now, 1)])%list
               = Some (mkEntry (path bundle) now now 1)).
  { rewrite find_entry_app_absent by exact F.
    cbn [col_path fst]. now rewrite String.eqb_refl. }
  split; [reflexivity|]. split.
  - unfold log_usage. now apply log_usage_insert.
  - split; [exact F2|]. intros date D.
    now apply get_bundle_found with (k := path bundle) (date := date).
Qed.

Lemma X5_delete_then_log_usage_restarts_witness :
  exists t1 t2,
    delete_entry (mkEntry "app_store/tk-shell/v1" 0 0 0)
      [("app_store/tk-shell/v1", 30, 40, 5)] = Ok t1 /\
    log_usage "/c" decimal_int (Some "/c/bundle_cache/app_store/tk-shell/v1")
      (at_time 50) t1 = Ok t2 /\
    _find_entry "app_store/tk-shell/v1" t2
    = Some (mkEntry "app_store/tk-shell/v1" 50 50 1).
Proof.
  destruct (X5_delete_then_log_usage_restarts "/c" decimal_int sample_strftime
              (Some "/c/bundle_cache/app_store/tk-shell/v1")
              (mkEntry "app_store/tk-shell/v1" 0 0 0) (at_time 50) 50
              [("app_store/tk-shell/v1", 30, 40, 5)] eq_refl eq_refl eq_refl)
    as (t1 & t2 & D & L & F & _).
  exists t1, t2. auto.
Defined.

(** ** What the rows of the ledger hold *)

Section Rows.

Variable g : string.
Variable py_int : string -> option Z.

(** A property of rows survives a call when the rows the call writes have
    it: a new row of a non-empty key with both times the timestamp drawn
    and the count 0 or 1, and a row rewritten with the timestamp drawn and
    the count of some entry plus one. *)
Lemma table_after_rows (P : db_record -> Prop) (w : World) (c : call)
    (t : table) :
  (forall r, In r t -> P r) ->
  (forall k now init,
      k <> "" -> init = initial_count c ->
      timestamp_drawn g py_int w c = Some now -> P (k, now, now, init)) ->
  (forall r0 now e,
      In r0 t -> In e (map Entry_init t) ->
      timestamp_drawn g py_int w c = Some now ->
      P (col_path r0, col_creation r0, now, usage_count e + 1)) ->
  forall r, In r (table_after g py_int w c t) -> P r.
Proof.
  intros Old New Upd r.
  unfold table_after. destruct c as [p|p|b];
    cbn [perform timestamp_drawn initial_count] in *.
  3: { unfold delete_entry, Sql.delete. intros H.
       apply filter_In in H as [H _]. now apply Old. }
  all: unfold log_usage, add_unused_bundle, _log_usage;
    destruct (usable_key (_truncate_path g p)) as [k|] eqn:K; [|now apply Old];
    destruct (_get_timestamp py_int w) as [now|x]; cbn [bind]; [|now apply Old];
    destruct (_find_entry k t) as [e|] eqn:F;
    [ destruct (update_cases now (usage_count e + 1) (path e) t)
        as [(_ & _ & ->)|(_ & ->)]; [|now apply Old];
      unfold Sql.update_rows; intros H;
      apply in_map_iff in H as (r0 & <- & H);
      destruct (String.eqb (col_path r0) (path e));
      [ apply Upd; auto; now apply find_entry_In with (k := k)
      | now apply Old ]
    | match goal with
      | |- context [Sql.insert (_, _, _, ?i) _] =>
          destruct (insert_absent_cases k now now i t F)
            as [(_ & _ & _ & ->)|(_ & ->)]; [|now apply Old]
      end;
      intros H; apply in_app_or in H as [H|[<-|[]]];
      [ now apply Old
      | apply New; auto; now apply usable_key_nonempty in K ] ].
Qed.

(** The times in the rows are timestamps drawn along the calls. *)
Lemma run_times_drawn (trace : list (World * call)) :
  forall (t : table) (seen : list Z),
    (forall r, In r t ->
               In (col_creation r) seen /\ In (col_last_usage r) seen) ->
    forall r, In r (run g py_int trace t) ->
      In (col_creation r) (seen ++ timestamps_drawn g py_int trace) /\
      In (col_last_usage r) (seen ++ timestamps_drawn g py_int trace).
Proof.
  induction trace as [|[w c] trace IH]; intros t seen Inv r Hr.
  - cbn [timestamps_drawn]. rewrite app_nil_r. now apply Inv.
  - cbn [run timestamps_drawn] in *.
    destruct (timestamp_drawn g py_int w c) as [now|] eqn:D.
    + replace (seen ++ now :: timestamps_drawn g py_int trace)%list
        with ((seen ++ [now]) ++ timestamps_drawn g py_int trace)%list
        by now rewrite <- app_assoc.
      revert r Hr. apply IH.
      apply (table_after_rows
               (fun r => In (col_creation r) (seen ++ [now])
                         /\ In (col_last_usage r) (seen ++ [now]))).
      * intros r Hr. destruct (Inv r Hr). split; apply in_or_app; now left.
      * intros k n i _ _ Dn. rewrite D in Dn. injection Dn as <-.
        cbn. split; apply in_or_app; right; now left.
      * intros r0 n e Hr0 _ Dn. rewrite D in Dn. injection Dn as <-.
        destruct (Inv r0 Hr0). cbn. split; apply in_or_app; [now left|].
        right; now left.
    + revert r Hr. apply IH.
      apply (table_after_rows
               (fun r => In (col_creation r) seen /\ In (col_last_usage r) seen));
        [exact Inv | intros; congruence | intros; congruence].
Qed.

(** Keys are not empty and counts are not negative. *)
Lemma run_rows_wellformed (trace : list (World * call)) :
  forall t : table,
    (forall r, In r t -> col_path r <> "" /\ 0 <= col_usage_count r) ->
    forall r, In r (run g py_int trace t) ->
              col_path r <> "" /\ 0 <= col_usage_count r.
Proof.
  induction trace as [|[w c] trace IH]; intros t Inv; [exact Inv|].
  cbn [run]. apply IH.
  apply (table_after_rows
           (fun r => col_path r <> "" /\ 0 <= col_usage_count r)).
  - exact Inv.
  - intros k now i Hk -> _. cbn. split; [exact Hk|]. destruct c; cbn; lia.
  - intros r0 now e Hr0 He _. cbn -[Z.add].
    apply in_map_iff in He as (r1 & <- & Hr1).
    destruct (Inv r0 Hr0), (Inv r1 Hr1). cbn -[Z.add]. split; [assumption|].
    unfold col_usage_count in *. lia.
Qed.

End Rows.

(** X6.  In every table the ledger can hold, every entry has a non-empty
    path and a usage count that is not negative. *)
Theorem X6_entries_wellformed
    (g : string) (py_int : string -> option Z) (trace : list (World * call))
    (e : BundleCacheUsageDatabaseEntry) :
  In e (map Entry_init (run g py_int trace [])) ->
  path e <> "" /\ 0 <= usage_count e.
Proof.
  intros H. apply in_map_iff in H as (r & <- & Hr).
  apply (run_rows_wellformed g py_int trace [] (fun _ F => match F with end) r Hr).
Qed.

Lemma X6_entries_wellformed_witness :
  let trace :=
    [ (at_time 1000, Call_add_unused_bundle (Some "/c/bundle_cache/app_store/tk-shell/v1"));
      (at_time 1000, Call_log_usage (Some "/c/bundle_cache/")) ] in
  run "/c" decimal_int trace [] = [("app_store/tk-shell/v1", 1000, 1000, 0)] /\
  0 <= usage_count (mkEntry "app_store/tk-shell/v1" 1000 1000 0).
Proof.
  intros trace. split; [reflexivity|].
  apply (X6_entries_wellformed "/c" decimal_int trace
           (mkEntry "app_store/tk-shell/v1" 1000 1000 0)).
  vm_compute. now left.
Defined.

(** X7.  The ledger stores no time of its own making: in every table it can
    hold, the creation time and the last-usage time of every entry are
    values [_get_timestamp] returned to one of the calls made. *)
Theorem X7_times_come_from_the_timestamp_source
    (g : string) (py_int : string -> option Z) (trace : list (World * call))
    (e : BundleCacheUsageDatabaseEntry) :
  In e (map Entry_init (run g py_int trace [])) ->
  In (creation_time e) (timestamps_drawn g py_int trace) /\
  In (last_usage_time e) (timestamps_drawn g py_int trace).
Proof.
  intros H. apply in_map_iff in H as (r & <- & Hr).
  apply (run_times_drawn g py_int trace [] [] (fun _ F => match F with end) r Hr).
Qed.

Lemma X7_times_come_from_the_timestamp_source_witness :
  let trace :=
    [ (at_time 1000, Call_log_usage (Some "/c/bundle_cache/app_store/tk-shell/v1"));
      (at_time 1500, Call_log_usage None);
      ({| timestamp_override := Some "2000"; clock := 1700 |},
       Call_log_usage (Some "/c/bundle_cache/app_store/tk-shell/v1")) ] in
  timestamps_drawn "/c" decimal_int trace = [1000; 2000] /\
  In (last_usage_time (mkEntry "app_store/tk-shell/v1" 1000 2000 2))
     (timestamps_drawn "/c" decimal_int trace).
Proof.
  intros trace. split; [reflexivity|].
  apply (X7_times_come_from_the_timestamp_source "/c" decimal_int trace
           (mkEntry "app_store/tk-shell/v1" 1000 2000 2)).
  vm_compute. now left.
Defined.

(** ** Listing, lookup and eviction *)










(** ** Recording calls of both kinds *)

(** Recording calls on a key that has a row: each call, of either kind, adds
    one use. *)
Lemma run_recording_present
    (g : string) (py_int : string -> option Z) (p : option string) (k : string)
    (rest : list (World * call)) :
  usable_key (_truncate_path g p) = Some k ->
  Forall (fun wc => (snd wc = Call_log_usage p
                     \/ snd wc = Call_add_unused_bundle p)
                    /\ exists now, _get_timestamp py_int (fst wc) = Ok now
                                   /\ Sql.int64 now = true)
         rest ->
  forall (t : table) (e : BundleCacheUsageDatabaseEntry),
    _find_entry k t = Some e ->
    0 <= usage_count e ->
    Sql.int64 (usage_count e + Z.of_nat (List.length rest)) = true ->
    exists e',
      _find_entry k (run g py_int rest t) = Some e' /\
      creation_time e' = creation_time e /\
      usage_count e' = usage_count e + Z.of_nat (List.length rest).
Proof.
  intros K. induction rest as [|[w c] rest IH]; intros A t e F Pos Top.
  - exists e. cbn. repeat split; [exact F | lia].
  - inversion A as [|? ? [Hc (now & T & Hn)] A']; subst. cbn [fst snd] in *.
    cbn [run]. rewrite length_cons, Nat2Z.inj_succ in Top.
    assert (Hcount : Sql.int64 (usage_count e + 1) = true)
      by (apply int64_iff; apply int64_iff in Top; lia).
    assert (E : table_after g py_int w c t
                = Sql.update_rows now (usage_count e + 1) k t).
    { unfold table_after.
      destruct Hc as [-> | ->]; cbn [perform];
        unfold log_usage, add_unused_bundle;
        now rewrite (log_usage_update g py_int p k _ now w t e K T F Hn Hcount). }
    rewrite E.
    destruct (IH A' _ _ (find_entry_update now (usage_count e + 1) k t e F))
      as (e' & F' & C & U).
    + cbn [usage_count]. lia.
    + cbn [usage_count].
      replace (usage_count e + 1 + Z.of_nat (List.length rest))
        with (usage_count e + Z.succ (Z.of_nat (List.length rest))) by lia.
      exact Top.
    + exists e'. split; [exact F'|]. split; [exact C|].
      rewrite U. cbn [usage_count].
      rewrite length_cons, Nat2Z.inj_succ. lia.
Qed.

(** X10.  Every recording call counts, of either kind.  When a key without a
    row receives a first recording call and then any mix of [log_usage] and
    [add_unused_bundle] calls on the same path, all with a timestamp that
    fits the 64-bit integer column (as does the number of calls), its
    entry ends with the creation time of the first call and a usage count
    that is the number of calls after the first, plus one when the first
    call was [log_usage]: an [add_unused_bundle] on an entry that exists
    adds a use. *)
Theorem X10_every_recording_call_counts
    (g : string) (py_int : string -> option Z) (p : option string) (k : string)
    (t : table) (w1 : World) (c1 : call) (n1 : Z)
    (rest : list (World * call)) :
  usable_key (_truncate_path g p) = Some k ->
  _find_entry k t = None ->
  c1 = Call_log_usage p \/ c1 = Call_add_unused_bundle p ->
  _get_timestamp py_int w1 = Ok n1 ->
  Sql.int64 n1 = true ->
  Forall (fun wc => (snd wc = Call_log_usage p
                     \/ snd wc = Call_add_unused_bundle p)
                    /\ exists now, _get_timestamp py_int (fst wc) = Ok now
                                   /\ Sql.int64 now = true)
         rest ->
  Sql.int64 (1 + Z.of_nat (List.length rest)) = true ->
  exists e,
    _find_entry k (run g py_int ((w1, c1) :: rest) t) = Some e /\
    creation_time e = n1 /\
    usage_count e = initial_count c1 + Z.of_nat (List.length rest).
Proof.
  intros K F Hc T Hn A Top. cbn [run].
  assert (I : 0 <= initial_count c1 <= 1)
    by (destruct Hc as [-> | ->]; cbn; lia).
  assert (Hi : Sql.int64 (initial_count c1) = true)
    by (destruct Hc as [-> | ->]; reflexivity).
  assert (E : table_after g py_int w1 c1 t
              = (t ++ [(k, n1, n1, initial_count c1)])%list).
  { unfold table_after.
    destruct Hc as [-> | ->]; cbn [perform initial_count] in Hi |- *;
      unfold log_usage, add_unused_bundle;
      now rewrite (log_usage_insert g py_int p k _ n1 w1 t K T F Hn Hi). }
  rewrite E.
  assert (F1 : _find_entry k (t ++ [(k, n1, n1, initial_count c1)])%list
               = Some (mkEntry k n1 n1 (initial_count c1))).
  { rewrite find_entry_app_absent by exact F.
    cbn [col_path fst]. now rewrite String.eqb_refl. }
  destruct (run_recording_present g py_int p k rest K A _ _ F1)
    as (e & Fe & C & U).
  - cbn [usage_count]. lia.
  - cbn [usage_count]. apply int64_iff. apply int64_iff in Top. lia.
  - exists e. auto.
Qed.

Lemma X10_every_recording_call_counts_witness :
  exists e,
    _find_entry "app_store/tk-shell/v1"
      (run "/c" decimal_int
         [ (at_time 1000, Call_add_unused_bundle (Some "/c/bundle_cache/app_store/tk-shell/v1"));
           (at_time 1100, Call_add_unused_bundle (Some "/c/bundle_cache/app_store/tk-shell/v1"));
           (at_time 1200, Call_log_usage (Some "/c/bundle_cache/app_store/tk-shell/v1")) ]
         [])
    = Some e /\
    creation_time e = 1000 /\
    usage_count e = 0 + Z.of_nat 2.
Proof.
  apply (X10_every_recording_call_counts "/c" decimal_int
           (Some "/c/bundle_cache/app_store/tk-shell/v1")
           "app_store/tk-shell/v1" [] (at_time 1000)
           (Call_add_unused_bundle (Some "/c/bundle_cache/app_store/tk-shell/v1"))
           1000); try reflexivity.
  - now right.
  - repeat constructor; cbn; auto; eexists; split; reflexivity.
Defined.

(** ** What a lookup returns and when a recording call raises *)

(** X11.  [get_bundle] answers for the path it is asked about: an entry it
    returns is a row of the table, and its path is the (non-empty) key of
    the path given, on any table. *)
Theorem X11_get_bundle_returns_the_entry_of_the_key
    (g : string) (strftime_fromtimestamp : Z -> result string)
    (p : option string) (t : table)
    (e : BundleCacheUsageDatabaseEntry) :
  get_bundle g strftime_fromtimestamp p t = Ok (Some e) ->
  usable_key (_truncate_path g p) = Some (path e) /\
  path e <> "" /\
  In e (map Entry_init t).
Proof.
  intros G. apply get_bundle_Some in G as (k & K & F).
  pose proof (find_entry_path _ _ _ F) as E. subst k.
  split; [exact K|]. split.
  - now apply usable_key_nonempty in K.
  - now apply find_entry_In in F.
Qed.

Lemma X11_get_bundle_returns_the_entry_of_the_key_witness :
  let t := [("git/tk-core/v2", 10, 20, 3); ("app_store/tk-shell/v1", 30, 40, 5)] in
  get_bundle "/c" sample_strftime
    (Some "/c/bundle_cache/app_store/tk-shell/v1") t
  = Ok (Some (mkEntry "app_store/tk-shell/v1" 30 40 5)) /\
  usable_key (_truncate_path "/c" (Some "/c/bundle_cache/app_store/tk-shell/v1"))
  = Some "app_store/tk-shell/v1".
Proof.
  intros t. split; [reflexivity|].
  exact (proj1 (X11_get_bundle_returns_the_entry_of_the_key "/c"
                  sample_strftime
                  (Some "/c/bundle_cache/app_store/tk-shell/v1") t
                  (mkEntry "app_store/tk-shell/v1" 30 40 5) eq_refl)).
Defined.

(** X12.  The two ways a recording call raises.  If [_log_usage] raises, on
    any table, the path has a usable key and either the exception is
    [ValueError] and the override is a non-empty string that [int] does not
    read, or it is [OverflowError], the timestamp source has answered, and
    the timestamp or the usage count to be written does not fit the 64-bit
    integer column.  In particular the [INSERT] never meets an existing
    key. *)
Theorem X12_why_a_recording_call_raises
    (g : string) (py_int : string -> option Z) (p : option string)
    (initial_usage_count : Z) (w : World) (t : table) (x : exn) :
  _log_usage g py_int p initial_usage_count w t = Raise x ->
  exists k,
    usable_key (_truncate_path g p) = Some k /\
    ((x = ValueError /\
      exists s, timestamp_override w = Some s /\ s <> "" /\ py_int s = None) \/
     (x = OverflowError /\
      exists now,
        _get_timestamp py_int w = Ok now /\
        (Sql.int64 now = false \/
         Sql.int64 (usage_count (recorded k initial_usage_count now
                                   (_find_entry k t))) = false))).
Proof.
  unfold _log_usage.
  destruct (usable_key (_truncate_path g p)) as [k|]; [|discriminate].
  intros H. exists k. split; [reflexivity|].
  destruct (_get_timestamp py_int w) as [now|y] eqn:T; cbn [bind] in H.
  - right. destruct (_find_entry k t) as [e|] eqn:F; cbn [recorded usage_count].
    + destruct (update_cases now (usage_count e + 1) (path e) t)
        as [(_ & _ & U)|(B & U)]; rewrite U in H; [discriminate|].
      injection H as <-. split; [reflexivity|]. now exists now.
    + destruct (insert_absent_cases k now now initial_usage_count t F)
        as [(_ & _ & _ & U)|(B & U)]; rewrite U in H; [discriminate|].
      injection H as <-. split; [reflexivity|]. exists now.
      split; [reflexivity|]. tauto.
  - left. injection H as <-. unfold _get_timestamp in T.
    destruct (timestamp_override w) as [s|]; [|discriminate].
    destruct s as [|a s]; [discriminate|]. cbn in T.
    destruct (py_int (String a s)) eqn:P; [discriminate|].
    injection T as <-. split; [reflexivity|].
    exists (String a s). now repeat split.
Qed.

Lemma X12_why_a_recording_call_raises_witness :
  let w := {| timestamp_override := Some "9223372036854775808"; clock := 1000 |} in
  _log_usage "/c" decimal_int (Some "/c/bundle_cache/app_store/tk-shell/v1") 1 w []
  = Raise OverflowError /\
  exists k,
    usable_key (_truncate_path "/c" (Some "/c/bundle_cache/app_store/tk-shell/v1"))
    = Some k.
Proof.
  intros w. split; [reflexivity|].
  destruct (X12_why_a_recording_call_raises "/c" decimal_int
              (Some "/c/bundle_cache/app_store/tk-shell/v1")
              1 w [] OverflowError eq_refl) as (k & K & _).
  now exists k.
Defined.
